(** * Statscope: the analysis pipeline of [analyzer.py] and its callers

    A shallow embedding of the functions of [src/analyzer.py] (overview,
    data quality, numeric insight, correlations, categorical summaries and
    the PDF report) together with the category display loop of
    [src/app.py], followed by the properties the specification states
    about them.

    Modelling conventions.
    - A pandas [DataFrame] is an index length and an ordered list of
      labelled, typed columns.  Four kinds of column are told apart, the
      ones the code tells apart with [select_dtypes] and [dtype]: numeric
      columns, text columns of dtype [object], text columns of dtype [str]
      (what [read_csv] gives for text from pandas 3 on), and everything
      else (booleans, timestamps, categories), whose cells are kept by
      their printed form.
    - Python [int]s are [Z].  Python floats are idealised: values that the
      code obtains with field operations are exact rationals ([Q], with the
      IEEE specials of [pyfloat] where the code can produce them), values
      that go through a square root (standard deviation, Pearson's r) are
      real numbers ([rfloat]).  No rounding is modelled.
    - Exceptions and the divisions by [len(df)] are explicit: functions that
      can raise, or that divide by the row count, live in the monad [M],
      which carries the list of divisions performed and either a value or
      the exception raised.
    - What pandas, textwrap and matplotlib do inside (date parsing, number
      formatting, line wrapping, rendering) is not part of the repository:
      date parsing, formatting and wrapping are section variables, and
      rendered figures are kept as symbolic descriptions. *)

From Stdlib Require Import String Ascii DecimalString Bool.
From Stdlib Require Import List Sorted ZArith QArith Qreals Reals Lra Lia.
From Stdlib Require Lqa.
Import ListNotations.

Set Implicit Arguments.

Local Open Scope string_scope.
Local Open Scope list_scope.
Local Open Scope Z_scope.

(* ------------------------------------------------------------------ *)
(** * Python values *)

Module Py.

(** [str(n)] for an [int]. *)
Definition str_of_Z (z : Z) : string := NilZero.string_of_int (Z.to_int z).

(** [s.lower()], on the ASCII letters. *)
Definition lower_ascii (c : ascii) : ascii :=
  let n := nat_of_ascii c in
  if (65 <=? n)%nat && (n <=? 90)%nat then ascii_of_nat (n + 32) else c.

Fixpoint lower (s : string) : string :=
  match s with
  | EmptyString => EmptyString
  | String c s' => String (lower_ascii c) (lower s')
  end.

(** [needle in hay] for two strings. *)
Fixpoint contains (needle hay : string) : bool :=
  String.prefix needle hay ||
  match hay with
  | EmptyString => false
  | String _ hay' => contains needle hay'
  end.

(** A float obtained from integers by field operations: a rational, or
    one of the IEEE special values. *)
Inductive pyfloat :=
| Fin (q : Q)
| Inf (negative : bool)
| NaN.

(** [x > y] for a float [x] and a finite constant [y]. *)
Definition gt (x : pyfloat) (y : Q) : bool :=
  match x with
  | Fin q => negb (Qle_bool q y)
  | Inf negative => negb negative
  | NaN => false
  end.

(** [x * k] for a float [x] and a positive finite constant [k]. *)
Definition times (x : pyfloat) (k : Q) : pyfloat :=
  match x with
  | Fin q => Fin (q * k)
  | Inf negative => Inf negative
  | NaN => NaN
  end.

(** A float that went through a square root: a real number or NaN. *)
Inductive rfloat :=
| RNaN
| RVal (r : R).

(** [abs(c) >= t]; a comparison with NaN is false. *)
Definition abs_ge (c : rfloat) (t : R) : bool :=
  match c with
  | RNaN => false
  | RVal r => if Rge_dec (Rabs r) t then true else false
  end.

(** [c > 0]; a comparison with NaN is false. *)
Definition positive (c : rfloat) : bool :=
  match c with
  | RNaN => false
  | RVal r => if Rgt_dec r 0 then true else false
  end.

(** [xs[:n]]: a negative bound counts from the end. *)
Definition slice_to {A} (xs : list A) (n : Z) : list A :=
  if n <? 0 then firstn (Z.to_nat (Z.of_nat (length xs) + n)) xs
  else firstn (Z.to_nat n) xs.

End Py.
Import Py.

(* ------------------------------------------------------------------ *)
(** * Exceptions and the log of divisions by the row count *)

Inductive exn :=
| KeyError (key : string)
| TypeError
| ZeroDivisionError
| ValueError.

(** One evaluation of [x / len(df)]. *)
Record division := Division { dividend : Z; divisor : Z }.

Inductive result (A : Type) :=
| Ok (a : A)
| Raise (e : exn).
Arguments Ok {A} a.
Arguments Raise {A} e.

Definition M (A : Type) : Type := (list division * result A)%type.

Definition ret {A} (a : A) : M A := ([], Ok a).

Definition raise {A} (e : exn) : M A := ([], Raise e).

Definition bind {A B} (m : M A) (f : A -> M B) : M B :=
  match m with
  | (t, Ok a) => let (t', r) := f a in (t ++ t', r)
  | (t, Raise e) => (t, Raise e)
  end.

Notation "x <- m ;; k" := (bind m (fun x => k))
  (at level 100, m at next level, right associativity).

Definition divisions {A} (m : M A) : list division := fst m.
Definition outcome {A} (m : M A) : result A := snd m.

Fixpoint mapM {A B} (f : A -> M B) (xs : list A) : M (list B) :=
  match xs with
  | [] => ret []
  | x :: xs' => y <- f x ;; ys <- mapM f xs' ;; ret (y :: ys)
  end.

(** Python's [a / b] on two [int]s: raises on a zero divisor. *)
Definition py_true_divide (a b : Z) : M pyfloat :=
  if b =? 0 then ([Division a b], Raise ZeroDivisionError)
  else ([Division a b], Ok (Fin (inject_Z a / inject_Z b))).

(** numpy's [a / b] on an [int64] and an [int]: a zero divisor gives an
    infinity or NaN (and a warning), never an exception. *)
Definition np_true_divide (a b : Z) : M pyfloat :=
  ([Division a b],
   Ok (if b =? 0 then (if a =? 0 then NaN else Inf (a <? 0))
       else Fin (inject_Z a / inject_Z b))).

(* ------------------------------------------------------------------ *)
(** * Tables *)

Inductive series :=
| Numeric (values : list (option Q))      (* int64 / float64; [None] is NaN *)
| Object (values : list (option string))  (* dtype object; [None] is a null *)
| Str (values : list (option string))     (* dtype str: text, from pandas 3 on *)
| Other (values : list (option string)).  (* any other dtype, cells by their repr *)

Record column := Column { label : string; data : series }.

Record DataFrame := Frame { index_len : nat; columns : list column }.

(** [len(df)] *)
Definition len (df : DataFrame) : Z := Z.of_nat (index_len df).

Definition size (s : series) : nat :=
  match s with
  | Numeric v => length v
  | Object v => length v
  | Str v => length v
  | Other v => length v
  end.

Definition is_none {A} (o : option A) : bool :=
  match o with None => true | Some _ => false end.

(** [s.isnull()] *)
Definition isnull (s : series) : list bool :=
  match s with
  | Numeric v => map is_none v
  | Object v => map is_none v
  | Str v => map is_none v
  | Other v => map is_none v
  end.

(** [df[col]]: the column with that label. *)
Fixpoint getitem (cols : list column) (key : string) : M series :=
  match cols with
  | [] => raise (KeyError key)
  | c :: cols' => if String.eqb (label c) key then ret (data c)
                  else getitem cols' key
  end.

(** A table as the loaders produce it: labels are unique and every
    column has one cell per row. *)
Record well_formed (df : DataFrame) : Prop := {
  wf_labels : NoDup (map label (columns df));
  wf_sizes : Forall (fun c => size (data c) = index_len df) (columns df)
}.

Definition is_number (c : column) : bool :=
  match data c with Numeric _ => true | _ => false end.

(** What [include="object"] selects: the text columns, whether their dtype
    is [object] or [str]. *)
Definition is_object (c : column) : bool :=
  match data c with Object _ | Str _ => true | _ => false end.

(** [df.select_dtypes(include=...)]: a sub-frame, same rows. *)
Definition select_dtypes (df : DataFrame) (include : column -> bool) : DataFrame :=
  Frame (index_len df) (filter include (columns df)).

(** [numeric.shape[1]] *)
Definition shape1 (df : DataFrame) : Z := Z.of_nat (length (columns df)).

(* ------------------------------------------------------------------ *)
(** * Data quality: [check_missing_data] *)

Record missing_record := MissingRecord {
  mr_column : string;
  mr_count : Z;
  mr_percentage : pyfloat
}.

Definition count_true (bs : list bool) : Z :=
  Z.of_nat (length (filter (fun b => b) bs)).

(** [df.isnull().sum()]: a Series of null counts, indexed by label. *)
Definition isnull_sum (df : DataFrame) : list (string * Z) :=
  map (fun c => (label c, count_true (isnull (data c)))) (columns df).

(** [missing[col]] on that Series. *)
Fixpoint loc (s : list (string * Z)) (key : string) : M Z :=
  match s with
  | [] => raise (KeyError key)
  | (k, v) :: s' => if String.eqb k key then ret v else loc s' key
  end.

Definition check_missing_data (df : DataFrame) : M (list missing_record) :=
  let missing := isnull_sum df in
  mapM (fun col =>
          n <- loc missing col ;;
          m <- loc missing col ;;
          q <- np_true_divide m (len df) ;;
          ret (MissingRecord col n (times q 100)))
       (map fst (filter (fun kv => 0 <? snd kv) missing)).

(* ------------------------------------------------------------------ *)
(** * Series operations used by the analyzers *)

Definition somes {A} (v : list (option A)) : list A :=
  flat_map (fun o => match o with Some x => [x] | None => [] end) v.

(** [s.dropna()] *)
Definition dropna (s : series) : series :=
  match s with
  | Numeric v => Numeric (map Some (somes v))
  | Object v => Object (map Some (somes v))
  | Str v => Str (map Some (somes v))
  | Other v => Other (map Some (somes v))
  end.

(** [s.empty] *)
Definition empty (s : series) : bool := (size s =? 0)%nat.

(** The distinct elements of a list, in order of first appearance. *)
Definition unique {A} (eqb : A -> A -> bool) (xs : list A) : list A :=
  fold_left (fun seen x => if existsb (eqb x) seen then seen else seen ++ [x])
            xs [].

(** A cell that holds something. *)
Inductive value :=
| Number (q : Q)
| Text (s : string).

Definition value_eqb (a b : value) : bool :=
  match a, b with
  | Number p, Number q => Qeq_bool p q
  | Text s, Text t => String.eqb s t
  | _, _ => false
  end.

Definition non_null (s : series) : list value :=
  match s with
  | Numeric v => map Number (somes v)
  | Object v => map Text (somes v)
  | Str v => map Text (somes v)
  | Other v => map Text (somes v)
  end.

(** [s.nunique()]: the number of distinct non-null values. *)
Definition nunique (s : series) : Z :=
  Z.of_nat (length (unique value_eqb (non_null s))).

Module Stats.

Definition sum (xs : list Q) : Q := fold_right Qplus 0%Q xs.

Definition count (xs : list Q) : Q := inject_Z (Z.of_nat (length xs)).

Definition mean (xs : list Q) : pyfloat :=
  match xs with
  | [] => NaN
  | _ => Fin (sum xs / count xs)
  end.

Fixpoint insert (x : Q) (sorted : list Q) : list Q :=
  match sorted with
  | [] => [x]
  | y :: sorted' => if Qle_bool x y then x :: sorted else y :: insert x sorted'
  end.

Definition sort (xs : list Q) : list Q := fold_right insert [] xs.

(** The middle value, or the mean of the two middle values. *)
Definition median (xs : list Q) : pyfloat :=
  let n := length xs in
  let s := sort xs in
  match xs with
  | [] => NaN
  | _ => if Nat.even n
         then Fin ((nth (n / 2 - 1) s 0 + nth (n / 2) s 0) / 2)%Q
         else Fin (nth (n / 2) s 0%Q)
  end.

Definition min (xs : list Q) : pyfloat :=
  match xs with
  | [] => NaN
  | x :: xs' => Fin (fold_left (fun m y => if Qle_bool y m then y else m) xs' x)
  end.

Definition max (xs : list Q) : pyfloat :=
  match xs with
  | [] => NaN
  | x :: xs' => Fin (fold_left (fun m y => if Qle_bool m y then y else m) xs' x)
  end.

(** Sum of squared deviations from the mean, in exact arithmetic. *)
Definition ssq (xs : list Q) : Q :=
  let m := (sum xs / count xs)%Q in
  sum (map (fun x => (x - m) * (x - m))%Q xs).

(** Sample standard deviation ([ddof = 1]); NaN below two values. *)
Definition std (xs : list Q) : rfloat :=
  match xs with
  | [] | [_] => RNaN
  | _ => RVal (sqrt (Q2R (ssq xs / (count xs - 1))))
  end.

End Stats.

(** A reduction that needs numbers raises on any other kind of series. *)
Definition reduce {A} (f : list Q -> A) (s : series) : M A :=
  match s with
  | Numeric v => ret (f (somes v))
  | _ => raise TypeError
  end.

(* ------------------------------------------------------------------ *)
(** * Numeric insight: [analyze_numeric_columns] *)

Record numeric_stats := NumericStats {
  ns_column : string;
  ns_mean : pyfloat;
  ns_median : pyfloat;
  ns_min : pyfloat;
  ns_max : pyfloat;
  ns_std : rfloat;
  ns_outlier_count : Z;
  ns_insight : string;
  ns_values : series
}.

Definition is_likely_identifier (s : series) (column_name : string)
    (df : DataFrame) : M bool :=
  let name := lower column_name in
  if contains "id" name || contains "uuid" name then ret true
  else q <- py_true_divide (nunique s) (len df) ;; ret (gt q (95 # 100)).

Section NumericInsight.

(** [f"{x:.1f}"] and [f"{x:.2f}"]: Python's fixed-point formatting. *)
Variable fixed : nat -> pyfloat -> string.

Definition insight_text (column : string) (beginner : bool)
    (mean min_val max_val : pyfloat) : string :=
  if beginner then
    ("This column shows " ++ column ++ ". "
     ++ "Most values are around " ++ fixed 1 mean ++ ". "
     ++ "Values usually fall between " ++ fixed 1 min_val
     ++ " and " ++ fixed 1 max_val ++ ".")%string
  else ("For " ++ column ++ ", the mean is " ++ fixed 2 mean ++ ".")%string.

Definition generate_numeric_insight (column : string) (s : series)
    (beginner : bool) : M string :=
  mean <- reduce Stats.mean s ;;
  min_val <- reduce Stats.min s ;;
  max_val <- reduce Stats.max s ;;
  ret (insight_text column beginner mean min_val max_val).

(** The body of the [for] loop of [analyze_numeric_columns], with the
    [results] list threaded through; [cols] is what is left to visit. *)
Fixpoint numeric_loop (df : DataFrame) (max_columns : Z) (beginner : bool)
    (cols : list string) (results : list numeric_stats)
    : M (list numeric_stats) :=
  match cols with
  | [] => ret results
  | col :: rest =>
      s <- getitem (columns df) col ;;
      let s := dropna s in
      skip <- (if empty s then ret true else is_likely_identifier s col df) ;;
      if (skip : bool) then numeric_loop df max_columns beginner rest results
      else
        mean <- reduce Stats.mean s ;;
        median <- reduce Stats.median s ;;
        min_val <- reduce Stats.min s ;;
        max_val <- reduce Stats.max s ;;
        std <- reduce Stats.std s ;;
        insight <- generate_numeric_insight col s beginner ;;
        let results :=
          results ++ [NumericStats col mean median min_val max_val std 0
                                   insight s] in
        if Z.of_nat (length results) >=? max_columns then ret results
        else numeric_loop df max_columns beginner rest results
  end.

Definition analyze_numeric_columns (df : DataFrame) (max_columns : Z)
    (beginner : bool) : M (list numeric_stats) :=
  numeric_loop df max_columns beginner
               (map label (columns (select_dtypes df is_number))) [].

End NumericInsight.

(* ------------------------------------------------------------------ *)
(** * Correlations: [find_correlations] and [get_correlation_matrix] *)

(** [DataFrame.corr()] belongs to pandas.  It is modelled by its
    documented meaning: Pearson's r of every pair of columns over the rows
    where both hold a value, NaN where there is no such row or where one of
    the two has no spread, and clipped to [-1, 1]. *)
Module Pearson.

Local Open Scope R_scope.

(** The rows where both columns hold a value. *)
Fixpoint complete (xs ys : list (option Q)) : list (Q * Q) :=
  match xs, ys with
  | Some x :: xs', Some y :: ys' => (x, y) :: complete xs' ys'
  | _ :: xs', _ :: ys' => complete xs' ys'
  | _, _ => []
  end.

Definition rsum (l : list R) : R := fold_right Rplus 0 l.

Definition xval (p : Q * Q) : R := Q2R (fst p).
Definition yval (p : Q * Q) : R := Q2R (snd p).

Definition mean (f : Q * Q -> R) (obs : list (Q * Q)) : R :=
  rsum (map f obs) / INR (length obs).

(** Sum over the observations of the products of deviations. *)
Definition codev (f g : Q * Q -> R) (obs : list (Q * Q)) : R :=
  rsum (map (fun p => (f p - mean f obs) * (g p - mean g obs)) obs).

Definition clip (v : R) : R :=
  if Rgt_dec v 1 then 1 else if Rlt_dec v (-1) then -1 else v.

Definition r (obs : list (Q * Q)) : rfloat :=
  match obs with
  | [] => RNaN
  | _ =>
      let d := sqrt (codev xval xval obs * codev yval yval obs) in
      if Req_EM_T d 0 then RNaN else RVal (clip (codev xval yval obs / d))
  end.

End Pearson.

Record corr_matrix := CorrMatrix {
  cm_columns : list string;
  cm_rows : list (list rfloat)
}.

(** The cells of a column as floats; text does not convert. *)
Definition to_float (c : column) : M (list (option Q)) :=
  match data c with
  | Numeric v => ret v
  | _ => raise TypeError
  end.

(** [df.corr()] *)
Definition corr (df : DataFrame) : M corr_matrix :=
  mat <- mapM to_float (columns df) ;;
  ret (CorrMatrix (map label (columns df))
         (map (fun xs => map (fun ys => Pearson.r (Pearson.complete xs ys)) mat)
              mat)).

(** [m.iloc[i, j]] *)
Definition iloc (m : corr_matrix) (i j : nat) : rfloat :=
  nth j (nth i (cm_rows m) []) RNaN.

Record correlation_pair := CorrelationPair {
  column1 : string;
  column2 : string;
  correlation : rfloat;
  direction : string
}.

(** The record built for the cell [(i, j)] of the matrix. *)
Definition pair_at (m : corr_matrix) (ij : nat * nat) : correlation_pair :=
  let (i, j) := ij in
  CorrelationPair (nth i (cm_columns m) "") (nth j (cm_columns m) "")
                  (iloc m i j)
                  (if positive (iloc m i j) then "positive" else "negative").

(** [range(a, b)] *)
Definition range (a b : nat) : list nat := seq a (b - a).

Definition find_correlations (df : DataFrame) (threshold : R)
    : M (list correlation_pair) :=
  let numeric := select_dtypes df is_number in
  if shape1 numeric <? 2 then ret []
  else
    m <- corr numeric ;;
    let n := length (cm_columns m) in
    ret (flat_map
           (fun i =>
              flat_map
                (fun j => if abs_ge (iloc m i j) threshold
                          then [pair_at m (i, j)] else [])
                (range (i + 1) n))
           (range 0 n)).

Definition get_correlation_matrix (df : DataFrame) : M (option corr_matrix) :=
  let numeric := select_dtypes df is_number in
  if shape1 numeric >=? 2 then m <- corr numeric ;; ret (Some m)
  else ret None.

(* ------------------------------------------------------------------ *)
(** * Categorical summaries: [analyze_categorical_columns] *)

(** A frequency table: value and number of occurrences. *)
Definition freq_table := list (value * Z).

Fixpoint insert_desc (e : value * Z) (sorted : freq_table) : freq_table :=
  match sorted with
  | [] => [e]
  | e' :: sorted' =>
      if snd e' <=? snd e then e :: sorted else e' :: insert_desc e sorted'
  end.

(** [s.value_counts()]: the distinct non-null values with their number of
    occurrences, most frequent first; equal counts keep the order of first
    appearance. *)
Definition value_counts (s : series) : freq_table :=
  let values := non_null s in
  fold_right insert_desc []
    (map (fun x => (x, Z.of_nat (length (filter (value_eqb x) values))))
         (unique value_eqb values)).

(** [t.head(n)] *)
Definition head {A} (n : nat) (t : list A) : list A := firstn n t.

Record categorical_summary := CategoricalSummary {
  cs_column : string;
  cs_unique_count : Z;
  cs_top_values : option freq_table       (* a Python value: may be [None] *)
}.

Definition analyze_categorical_columns (df : DataFrame) (max_columns : Z)
    : M (list categorical_summary) :=
  mapM (fun col =>
          s <- getitem (columns df) col ;;
          s' <- getitem (columns df) col ;;
          ret (CategoricalSummary col (nunique s)
                                  (Some (head 10 (value_counts s')))))
       (slice_to (map label (columns (select_dtypes df is_object))) max_columns).

(** The category section of the page ([app.py]). *)
Inductive figure :=
| Histogram (values : series) (title : string) (bins : Z)
| Heatmap (m : corr_matrix)
| BarChart (counts : freq_table) (title : string).

Inductive widget :=
| Markdown (text : string)
| Pyplot (fig : figure)
| Caption (text : string).

(** [create_category_bar_chart] ([visualizer.py]) *)
Definition create_category_bar_chart (value_counts : freq_table)
    (column_name : string) : figure :=
  BarChart value_counts ("Most common values in " ++ column_name)%string.

Definition too_many : string := "Too many unique values to visualize clearly.".

Definition show_categories (categories : list categorical_summary)
    : list widget :=
  flat_map
    (fun cat =>
       Markdown ("**" ++ cs_column cat ++ "** ("
                 ++ str_of_Z (cs_unique_count cat) ++ " unique values)")%string
       :: match cs_top_values cat with
          | Some top => [Pyplot (create_category_bar_chart top (cs_column cat))]
          | None => [Caption too_many]
          end)
    categories.

(* ------------------------------------------------------------------ *)
(** * Dataset overview: [identify_date_range], [get_dataset_overview] *)

Record overview := Overview {
  total_rows : Z;
  total_columns : Z;
  date_range : string
}.

(** [s.dtype == "object"]: false for a text column of dtype [str]. *)
Definition dtype_is_object (s : series) : bool :=
  match s with Object _ => true | _ => false end.

Definition no_date : string := "No date column detected".

Section Overview.

(** [pd.to_datetime(s, errors="coerce")]: one timestamp (nanoseconds) or
    NaT per cell; how pandas reads a date is not modelled. *)
Variable to_datetime : series -> list (option Z).

(** [str(t.date())] for a timestamp. *)
Variable date_str : Z -> string.

(** [dates.notna().mean()]; the mean of no value at all is NaN. *)
Definition notna_mean (dates : list (option Z)) : pyfloat :=
  match dates with
  | [] => NaN
  | _ => Fin (inject_Z (Z.of_nat (length (somes dates)))
              / inject_Z (Z.of_nat (length dates)))
  end.

(** [dates.min()] and [dates.max()] skip NaT; NaT when nothing is left. *)
Definition ts_min (dates : list (option Z)) : option Z :=
  match somes dates with
  | [] => None
  | t :: ts => Some (fold_left Z.min ts t)
  end.

Definition ts_max (dates : list (option Z)) : option Z :=
  match somes dates with
  | [] => None
  | t :: ts => Some (fold_left Z.max ts t)
  end.

Definition date_repr (t : option Z) : string :=
  match t with Some t => date_str t | None => "NaT" end.

Definition format_range (dates : list (option Z)) : string :=
  (date_repr (ts_min dates) ++ " to " ++ date_repr (ts_max dates))%string.

(** The [for] loop of [identify_date_range] over the labels left. *)
Fixpoint date_loop (df : DataFrame) (cols : list string) : M string :=
  match cols with
  | [] => ret no_date
  | col :: rest =>
      s <- getitem (columns df) col ;;
      if dtype_is_object s then
        s' <- getitem (columns df) col ;;
        let dates := to_datetime s' in
        if gt (notna_mean dates) (7 # 10) then ret (format_range dates)
        else date_loop df rest
      else date_loop df rest
  end.

Definition identify_date_range (df : DataFrame) : M string :=
  date_loop df (map label (columns df)).

Definition get_dataset_overview (df : DataFrame) : M overview :=
  r <- identify_date_range df ;;
  ret (Overview (len df) (Z.of_nat (length (columns df))) r).

End Overview.

(* ------------------------------------------------------------------ *)
(** * PDF report: [generate_pdf_report] *)

(** What the code asks of the reportlab canvas, in order. *)
Inductive canvas_op :=
| SetFont (name : string) (size : Z)
| DrawString (x y : Q) (text : string)
| DrawImage (image : figure) (x y width height : Q)
| ShowPage
| Save.

(** The canvas and the vertical cursor [y] of the closure. *)
Record pdf_state := PdfState { canvas : list canvas_op; y : Q }.

(** A4 in points, as reportlab defines it: 297 mm at 72 points an inch. *)
Definition A4_height : Q := 297 * (72 / (254 # 100) * (1 # 10)).

Definition margin_x : Q := 50.

Definition top : Q := A4_height - 50.

Definition emit (op : canvas_op) (st : pdf_state) : pdf_state :=
  PdfState (canvas st ++ [op]) (y st).

Definition down (dy : Q) (st : pdf_state) : pdf_state :=
  PdfState (canvas st) (y st - dy).

Definition drawString (text : string) (st : pdf_state) : pdf_state :=
  emit (DrawString margin_x (y st) text) st.

Definition new_page (st : pdf_state) : pdf_state :=
  emit (SetFont "Helvetica" 11) (PdfState (canvas st ++ [ShowPage]) top).

Definition title_lines (dataset_name : string) : list string :=
  ["Statscope Report"; ("Dataset: " ++ dataset_name)%string].

Definition overview_lines (ov : overview) : list string :=
  [("Rows: " ++ str_of_Z (total_rows ov))%string;
   ("Columns: " ++ str_of_Z (total_columns ov))%string;
   ("Date range: " ++ date_range ov)%string].

Section Report.

(** [textwrap.wrap(text, width)] *)
Variable wrap : string -> Z -> list string.

Definition numeric_block (st : pdf_state) (stat : numeric_stats) : pdf_state :=
  let st := if negb (Qle_bool 250 (y st)) then new_page st else st in
  let st := emit (SetFont "Helvetica-Bold" 12) st in
  let st := drawString (ns_column stat) st in
  let st := down 15 st in
  let st := fold_left
              (fun st line =>
                 down 14 (drawString line (emit (SetFont "Helvetica" 11) st)))
              (wrap (ns_insight stat) 90) st in
  let fig := Histogram (ns_values stat) (ns_column stat) 20 in
  let st := emit (DrawImage fig margin_x (y st - 120) 300 120) st in
  down 150 st.

Definition heatmap_block (st : pdf_state) (corr_matrix : option corr_matrix)
    : pdf_state :=
  match corr_matrix with
  | Some m =>
      let st := new_page st in
      let st := emit (SetFont "Helvetica-Bold" 13) st in
      let st := drawString "Correlation Heatmap" st in
      let st := down 20 st in
      emit (DrawImage (Heatmap m) margin_x (y st - 300) 300 300) st
  | None => st
  end.

(** The document is what reached the canvas when it is saved. *)
Definition generate_pdf_report (dataset_name : string) (ov : overview)
    (numeric : list numeric_stats) (corr_matrix : option corr_matrix)
    (categories : list categorical_summary) : list canvas_op :=
  let st := PdfState [] top in
  (* title *)
  let st := emit (SetFont "Helvetica-Bold" 16) st in
  let st := drawString "Statscope Report" st in
  let st := down 25 st in
  let st := emit (SetFont "Helvetica-Oblique" 11) st in
  let st := drawString ("Dataset: " ++ dataset_name)%string st in
  let st := down 30 st in
  (* overview *)
  let st := emit (SetFont "Helvetica" 11) st in
  let st := drawString ("Rows: " ++ str_of_Z (total_rows ov))%string st in
  let st := down 15 st in
  let st := drawString ("Columns: " ++ str_of_Z (total_columns ov))%string st in
  let st := down 15 st in
  let st := drawString ("Date range: " ++ date_range ov)%string st in
  let st := down 30 st in
  (* numeric *)
  let st := emit (SetFont "Helvetica-Bold" 13) st in
  let st := drawString "Numeric Insights" st in
  let st := down 20 st in
  let st := fold_left numeric_block numeric st in
  (* correlation heatmap *)
  let st := heatmap_block st corr_matrix in
  canvas (emit Save st).

End Report.

(** The text and the images a document shows. *)
Definition drawn_text (doc : list canvas_op) : list string :=
  flat_map (fun op => match op with DrawString _ _ s => [s] | _ => [] end) doc.

Definition drawn_images (doc : list canvas_op) : list figure :=
  flat_map (fun op => match op with DrawImage f _ _ _ _ => [f] | _ => [] end) doc.

Definition pages (doc : list canvas_op) : nat :=
  S (length (filter (fun op => match op with ShowPage => true | _ => false end)
                    doc)).

(* ------------------------------------------------------------------ *)
(** * Charts: [visualizer.py] *)




(** [create_correlation_heatmap] *)
Definition create_correlation_heatmap (m : corr_matrix) : figure := Heatmap m.

(* ------------------------------------------------------------------ *)
(** * The sections of the page: [app.py] *)

(** What a section puts on the page, in order. *)
Inductive output :=
| Subheader (text : string)
| Warning (text : string)
| Write (text : string)
| Success (text : string)
| Info (text : string)
| Expander (label : string) (lines : list string)
| Element (w : widget).

Definition newline : string := String (ascii_of_nat 10) EmptyString.

(** [abs(c)] for a coefficient. *)
Definition rabs (c : rfloat) : rfloat :=
  match c with
  | RNaN => RNaN
  | RVal r => RVal (Rabs r)
  end.

Definition default_max_numeric : Z := 3.
Definition default_threshold : R := (1 / 2)%R.
Definition default_max_categorical : Z := 2.

Section Page.

(** [f"{x:.1f}"], [f"{x:.2f}"] on the two kinds of float. *)
Variable fixed : nat -> pyfloat -> string.
Variable fixed_r : nat -> rfloat -> string.

(** Section 2, once the records are there. *)
Definition show_missing (missing : list missing_record) : list output :=
  match missing with
  | [] => [Success "No missing data found."]
  | _ =>
      Warning "Missing values detected:"
      :: map (fun item =>
                Write ("- **" ++ mr_column item ++ "**: "
                       ++ str_of_Z (mr_count item) ++ " missing ("
                       ++ fixed 1 (mr_percentage item) ++ "%)")%string)
             missing
  end.

Definition data_quality_section (df : DataFrame) : M (list output) :=
  missing <- check_missing_data df ;;
  ret (Subheader "2️⃣ Data Quality" :: show_missing missing).




(** Section 4 *)
Definition reading_help : string :=
  ("This chart shows how numbers move together." ++ newline ++ newline
   ++ "🔵 Blue = values increase together" ++ newline
   ++ "🔴 Red = one increases while the other decreases" ++ newline
   ++ "🎨 Darker color = stronger relationship")%string.

Definition show_pair (corr : correlation_pair) : output :=
  let emoji := if String.eqb (direction corr) "positive" then "📈" else "📉" in
  Write (emoji ++ " **" ++ column1 corr ++ "** vs **" ++ column2 corr
         ++ "** (strength: " ++ fixed_r 2 (rabs (correlation corr)) ++ ")")%string.

Definition relationships_section (df : DataFrame) (explain_like_new : bool)
    : M (list output) :=
  correlations <- find_correlations df default_threshold ;;
  shown <-
    match correlations with
    | [] => ret [Info "No strong relationships detected."]
    | _ =>
        corr_matrix <- get_correlation_matrix df ;;
        ret (Element (Caption "Correlation shows association — not causation.")
             :: (if explain_like_new then [Info reading_help] else [])
             ++ map show_pair correlations
             ++ match corr_matrix with
                | Some m => [Element (Pyplot (create_correlation_heatmap m))]
                | None => []
                end)
    end ;;
  ret (Subheader "4️⃣ Relationships between numbers" :: shown).

(** Section 5 *)
Definition categories_section (df : DataFrame) : M (list output) :=
  categories <- analyze_categorical_columns df default_max_categorical ;;
  ret (Subheader "5️⃣ Categories" :: map Element (show_categories categories)).

End Page.

Section Download.

Variable fixed : nat -> pyfloat -> string.
Variable wrap : string -> Z -> list string.

(** The report the page offers for download, from the results of the
    sections above. *)
Definition report_download (df : DataFrame) (dataset_name : string)
    (ov : overview) (explain_like_new : bool) : M (list canvas_op) :=
  numeric_analysis <-
    analyze_numeric_columns fixed df default_max_numeric explain_like_new ;;
  categories <- analyze_categorical_columns df default_max_categorical ;;
  corr_matrix <- get_correlation_matrix df ;;
  ret (generate_pdf_report wrap dataset_name ov numeric_analysis corr_matrix
                           categories).

End Download.

(* ================================================================== *)
(** * Vocabulary of the statements *)

Definition null_count (c : column) : Z := count_true (isnull (data c)).

Definition has_nulls (c : column) : bool := negb (null_count c =? 0).

(** The record the code builds for a column that has nulls. *)
Definition missing_record_of (df : DataFrame) (c : column) : missing_record :=
  MissingRecord (label c) (null_count c)
    (Fin (inject_Z (null_count c) / inject_Z (len df) * 100)).

Fixpoint distinct_labels (ls : list string) : bool :=
  match ls with
  | [] => true
  | l :: ls' => negb (existsb (String.eqb l) ls') && distinct_labels ls'
  end.

Definition well_formedb (df : DataFrame) : bool :=
  distinct_labels (map label (columns df))
  && forallb (fun c => (size (data c) =? index_len df)%nat) (columns df).

(** The three checks of the loop, as the code evaluates them. *)
Definition empty_after_dropna (c : column) : bool := empty (dropna (data c)).

Definition named_like_identifier (c : column) : bool :=
  contains "id" (lower (label c)) || contains "uuid" (lower (label c)).

(** [nunique / len(df) > 0.95] *)
Definition mostly_distinct (df : DataFrame) (c : column) : bool :=
  gt (Fin (inject_Z (nunique (data c)) / inject_Z (len df))) (95 # 100).

Definition eligible (df : DataFrame) (c : column) : bool :=
  negb (empty_after_dropna c) && negb (named_like_identifier c)
  && negb (mostly_distinct df c).

(** A column fails one of the three checks of the numeric analysis. *)
Definition excluded (df : DataFrame) (c : column) : Prop :=
  non_null (data c) = []
  \/ (contains "id" (lower (label c)) = true
      \/ contains "uuid" (lower (label c)) = true)
  \/ (95 # 100 < inject_Z (nunique (data c)) / inject_Z (len df))%Q.

(** The values of a numeric column that are not null. *)
Definition numbers (c : column) : list Q :=
  match data c with Numeric v => somes v | _ => [] end.

(** The kept columns the loop reaches before the cap stops it, when
    [have] records are already there. *)
Fixpoint until_cap {A} (max_columns : Z) (have : nat) (kept : list A)
    : list A :=
  match kept with
  | [] => []
  | x :: kept' =>
      x :: (if Z.of_nat (S have) >=? max_columns then []
            else until_cap max_columns (S have) kept')
  end.

Section NumericRecords.

Variable fixed : nat -> pyfloat -> string.

(** The record the loop appends for a column it keeps. *)
Definition stats_of (beginner : bool) (c : column) : numeric_stats :=
  let xs := numbers c in
  NumericStats (label c) (Stats.mean xs) (Stats.median xs) (Stats.min xs)
    (Stats.max xs) (Stats.std xs) 0
    (insight_text fixed (label c) beginner
                  (Stats.mean xs) (Stats.min xs) (Stats.max xs))
    (dropna (data c)).

End NumericRecords.

Definition swap (p : Q * Q) : Q * Q := (snd p, fst p).

Definition spread (zs : list Q) : R :=
  Pearson.codev Pearson.xval Pearson.xval (map (fun z => (z, z)) zs).

(** All the values are equal to the first one. *)
Definition constant (zs : list Q) : bool :=
  match zs with
  | [] => true
  | z :: zs' => forallb (Qeq_bool z) zs'
  end.

Definition numeric_columns (df : DataFrame) : list column :=
  filter is_number (columns df).

(** The cells of a numeric column. *)
Definition floats (c : column) : list (option Q) :=
  match data c with Numeric v => v | _ => [] end.

(** The matrix [numeric.corr()] evaluates to. *)
Definition correlation_matrix (df : DataFrame) : corr_matrix :=
  let mat := map floats (numeric_columns df) in
  CorrMatrix (map label (numeric_columns df))
    (map (fun xs => map (fun ys => Pearson.r (Pearson.complete xs ys)) mat) mat).

(** The cells above the diagonal of an [n] by [n] matrix, row by row. *)
Definition upper_triangle (n : nat) : list (nat * nat) :=
  flat_map (fun i => map (pair i) (range (i + 1) n)) (range 0 n).

(** [a] comes before [b] when the matrix is read row by row. *)
Definition row_major (a b : nat * nat) : Prop :=
  (fst a < fst b \/ (fst a = fst b /\ snd a < snd b))%nat.

Definition names_of (p : correlation_pair) : string * string :=
  (column1 p, column2 p).

(** The test of the inner loop on the cell [(i, j)]. *)
Definition meets (m : corr_matrix) (threshold : R) (ij : nat * nat) : bool :=
  abs_ge (iloc m (fst ij) (snd ij)) threshold.

(** The labels of the two columns of a cell. *)
Definition labels_at (df : DataFrame) (ij : nat * nat) : string * string :=
  (nth (fst ij) (map label (numeric_columns df)) "",
   nth (snd ij) (map label (numeric_columns df)) "").

(** Most frequent first. *)
Definition descending (a b : value * Z) : Prop := snd b <= snd a.

(** The series [df[col]] evaluates to when the label exists. *)
Fixpoint series_at (cols : list column) (key : string) : series :=
  match cols with
  | [] => Object []
  | c :: cols' => if String.eqb (label c) key then data c
                  else series_at cols' key
  end.

(** The summary built for a label. *)
Definition summary_of (df : DataFrame) (col : string) : categorical_summary :=
  CategoricalSummary col (nunique (series_at (columns df) col))
    (Some (head 10 (value_counts (series_at (columns df) col)))).




Section DateColumns.

Variable to_datetime : series -> list (option Z).


(** The two tests of the loop body. *)
Definition date_likeb (c : column) : bool :=
  dtype_is_object (data c)
  && gt (notna_mean (to_datetime (data c))) (7 # 10).

End DateColumns.

Section ReportBlocks.

Variable wrap : string -> Z -> list string.

(** The lines and the picture of one numeric record. *)
Definition block_text (stat : numeric_stats) : list string :=
  ns_column stat :: wrap (ns_insight stat) 90.

End ReportBlocks.

Definition block_image (stat : numeric_stats) : figure :=
  Histogram (ns_values stat) (ns_column stat) 20.

(** A report shows only the title and the overview. *)
Definition only_title_and_overview (dataset_name : string) (ov : overview)
    (doc : list canvas_op) : Prop :=
  drawn_text doc = title_lines dataset_name ++ overview_lines ov
  /\ drawn_images doc = [].

(** ** Sample tables *)

Module Samples.

(** Four rows: a text column with a null, a numeric column with a null,
    a complete numeric column and a complete boolean column. *)
Definition sales : DataFrame :=
  Frame 4
    [ Column "region" (Object [Some "north"; None; Some "south"; Some "north"]);
      Column "amount" (Numeric [Some 10; Some 20; None; Some 20]%Q);
      Column "units" (Numeric [Some 1; Some 1; Some 2; Some 3]%Q);
      Column "paid" (Other [Some "True"; Some "False"; Some "True"; Some "True"]) ].

(** A header and no row. *)
Definition no_rows : DataFrame :=
  Frame 0 [ Column "region" (Object []); Column "amount" (Numeric []);
            Column "units" (Numeric []) ].

(** One numeric column that passes every check of the numeric analysis. *)
Definition one_measure : DataFrame :=
  Frame 2 [ Column "price" (Numeric [Some 5; Some 5]%Q) ].

(** Two numeric columns, the first of them constant. *)
Definition flat_and_rising : DataFrame :=
  Frame 2 [ Column "flat" (Numeric [Some 1; Some 1]%Q);
            Column "rising" (Numeric [Some 1; Some 2]%Q) ].

(** An identifier and a measurement. *)
Definition accounts : DataFrame :=
  Frame 4 [ Column "user_id" (Numeric [Some 1; Some 2; Some 3; Some 4]%Q);
            Column "balance" (Numeric [Some 7; Some 7; Some 9; Some 7]%Q) ].

(** Measurements that are all different. *)
Definition heights : DataFrame :=
  Frame 4 [ Column "height" (Numeric [Some 150; Some 160; Some 170; Some 180]%Q) ].

(** Two numeric columns that move against each other. *)
Definition up_and_down : DataFrame :=
  Frame 2 [ Column "up" (Numeric [Some 1; Some 2]%Q);
            Column "down" (Numeric [Some 2; Some 1]%Q) ].

(** Fixed-point formatting of an exact value, rounding half to even. *)
Definition round_half_even (q : Q) : Z :=
  let n := Qnum q in
  let d := Zpos (Qden q) in
  let r := 2 * (n mod d) in
  if r <? d then n / d
  else if d <? r then n / d + 1
  else if Z.even (n / d) then n / d else n / d + 1.

Fixpoint pad (width : nat) (digits : string) : string :=
  match width with
  | O => digits
  | S w => if (String.length digits <=? w)%nat
           then pad w ("0" ++ digits)%string else digits
  end.

Definition fixed (places : nat) (x : pyfloat) : string :=
  match x with
  | NaN => "nan"
  | Inf negative => if negative then "-inf" else "inf"
  | Fin q =>
      let unit := 10 ^ Z.of_nat places in
      let n := round_half_even (q * inject_Z unit) in
      let sign := if n <? 0 then "-" else "" in
      (sign ++ str_of_Z (Z.abs n / unit) ++ "."
       ++ pad places (str_of_Z (Z.abs n mod unit)))%string
  end.

End Samples.

(** A sample reader of dates: "YYYY-MM-DD" and nothing else, a date being
    kept as the number YYYYMMDD. *)
Module DateSamples.

Definition digit (c : ascii) : option Z :=
  let n := nat_of_ascii c in
  if (48 <=? n)%nat && (n <=? 57)%nat then Some (Z.of_nat (n - 48)) else None.

Fixpoint number (s : string) (acc : Z) : option Z :=
  match s with
  | EmptyString => Some acc
  | String c s' => match digit c with
                   | Some d => number s' (10 * acc + d)
                   | None => None
                   end
  end.

Definition is_dash (c : option ascii) : bool :=
  match c with
  | Some c => Ascii.eqb c "-"%char
  | None => false
  end.

Definition parse (s : string) : option Z :=
  match number (substring 0 4 s) 0, number (substring 5 2 s) 0,
        number (substring 8 2 s) 0 with
  | Some y, Some m, Some d =>
      if (String.length s =? 10)%nat && is_dash (String.get 4 s)
         && is_dash (String.get 7 s)
         && (1 <=? m) && (m <=? 12) && (1 <=? d) && (d <=? 31)
      then Some (y * 10000 + m * 100 + d) else None
  | _, _, _ => None
  end.

Definition to_datetime (s : series) : list (option Z) :=
  match s with
  | Object v | Str v => map (fun o => match o with
                                      | Some text => parse text
                                      | None => None
                                      end) v
  | Numeric v => map (fun _ => None) v
  | Other v => map (fun _ => None) v
  end.

Definition date_str (t : Z) : string :=
  (Samples.pad 4 (str_of_Z (t / 10000)) ++ "-"
   ++ Samples.pad 2 (str_of_Z (t / 100 mod 100)) ++ "-"
   ++ Samples.pad 2 (str_of_Z (t mod 100)))%string.

(** Three text columns: free text, then two columns of dates. *)
Definition orders : DataFrame :=
  Frame 4
    [ Column "note" (Object [Some "late"; Some "2024-01-05"; None; Some "n/a"]);
      Column "ordered" (Object [Some "2024-03-01"; Some "2024-01-15";
                                Some "soon"; Some "2024-02-10"]);
      Column "shipped" (Object [Some "2025-03-02"; Some "2025-01-20";
                                Some "2025-01-21"; Some "2025-02-11"]) ].


End DateSamples.

(** [q] is the least (greatest) of the values [xs]. *)
Definition least (xs : list Q) (q : Q) : Prop :=
  In q xs /\ forall y, In y xs -> (q <= y)%Q.

Definition greatest (xs : list Q) (q : Q) : Prop :=
  In q xs /\ forall y, In y xs -> (y <= q)%Q.

(** A record of the numeric analysis summarises the values [xs]: there
    is at least one, they are what the record keeps for the chart, and its
    minimum and maximum are two of them, the least and the greatest. *)
Definition summarises (r : numeric_stats) (xs : list Q) : Prop :=
  xs <> []
  /\ ns_values r = Numeric (map Some xs)
  /\ exists lo hi,
       ns_min r = Fin lo /\ ns_max r = Fin hi
       /\ least xs lo /\ greatest xs hi.

(** The line of the data-quality section for one record. *)
Definition missing_line (fixed : nat -> pyfloat -> string)
    (item : missing_record) : string :=
  ("- **" ++ mr_column item ++ "**: " ++ str_of_Z (mr_count item)
   ++ " missing (" ++ fixed 1%nat (mr_percentage item) ++ "%)")%string.

(** What the heatmap section adds to the canvas: a new page, the heading
    at the top of it and the picture below. *)
Definition heatmap_ops (m : corr_matrix) : list canvas_op :=
  [ShowPage; SetFont "Helvetica" 11; SetFont "Helvetica-Bold" 13;
   DrawString margin_x top "Correlation Heatmap";
   DrawImage (Heatmap m) margin_x (top - 20 - 300) 300 300].

Definition is_page_break (op : canvas_op) : bool :=
  match op with ShowPage => true | _ => false end.

(** The number of page breaks of a document. *)
Definition breaks (doc : list canvas_op) : nat :=
  length (filter is_page_break doc).

(** The heights at which text and pictures are put. *)
Definition heights (doc : list canvas_op) : list Q :=
  flat_map (fun op => match op with
                      | DrawString _ y _ => [y]
                      | DrawImage _ _ y _ _ => [y]
                      | _ => []
                      end) doc.

(** A height on the page: not below its bottom edge, not above the first
    line. *)
Definition on_page (y : Q) : Prop := (0 <= y <= top)%Q.





(* ================================================================== *)
(** * Properties *)

(** ** The monad *)

Lemma bind_ok {A B} (t : list division) (a : A) (f : A -> M B) :
  bind (t, Ok a) f = (t ++ fst (f a), snd (f a)).
Proof. unfold bind. destruct (f a); reflexivity. Qed.

Lemma bind_ret {A B} (a : A) (f : A -> M B) : bind (ret a) f = f a.
Proof. unfold ret. rewrite bind_ok. destruct (f a); reflexivity. Qed.

Lemma bind_raise {A B} (t : list division) (e : exn) (f : A -> M B) :
  bind (t, Raise e) f = (t, Raise e).
Proof. reflexivity. Qed.

Lemma mapM_ok {A B} (f : A -> M B) (t : A -> list division) (g : A -> B)
    (xs : list A) :
  (forall x, In x xs -> f x = (t x, Ok (g x))) ->
  mapM f xs = (flat_map t xs, Ok (map g xs)).
Proof.
  induction xs as [|x xs IH]; intros H; simpl.
  - reflexivity.
  - rewrite (H x (or_introl eq_refl)), bind_ok.
    rewrite IH by (intros; apply H; right; assumption).
    simpl. rewrite app_nil_r. reflexivity.
Qed.

Lemma mapM_map {A B C} (f : B -> M C) (g : A -> B) (xs : list A) :
  mapM f (map g xs) = mapM (fun x => f (g x)) xs.
Proof.
  induction xs as [|x xs IH]; simpl; [reflexivity|].
  rewrite IH. reflexivity.
Qed.

(** ** Lookup by label *)

Lemma getitem_in (cols : list column) (c : column) :
  NoDup (map label cols) -> In c cols ->
  getitem cols (label c) = ret (data c).
Proof.
  induction cols as [|c' cols IH]; simpl; intros ND Hin; [contradiction|].
  inversion ND as [|? ? Hnotin ND']; subst.
  destruct Hin as [->|Hin].
  - rewrite String.eqb_refl. reflexivity.
  - destruct (String.eqb_spec (label c') (label c)) as [E|_].
    + exfalso. apply Hnotin. rewrite E. apply in_map. assumption.
    + apply IH; assumption.
Qed.

Lemma loc_in (cols : list column) (c : column) :
  NoDup (map label cols) -> In c cols ->
  loc (map (fun c => (label c, null_count c)) cols) (label c)
  = ret (null_count c).
Proof.
  induction cols as [|c' cols IH]; simpl; intros ND Hin; [contradiction|].
  inversion ND as [|? ? Hnotin ND']; subst.
  destruct Hin as [->|Hin].
  - rewrite String.eqb_refl. reflexivity.
  - destruct (String.eqb_spec (label c') (label c)) as [E|_].
    + exfalso. apply Hnotin. rewrite E. apply in_map. assumption.
    + apply IH; assumption.
Qed.

Lemma filter_map_comm {A B} (f : A -> B) (p : B -> bool) (l : list A) :
  filter p (map f l) = map f (filter (fun x => p (f x)) l).
Proof.
  induction l as [|x l IH]; simpl; [reflexivity|].
  destruct (p (f x)); simpl; rewrite IH; reflexivity.
Qed.

Lemma filter_none {A} (p : A -> bool) (l : list A) :
  (forall x, In x l -> p x = false) -> filter p l = [].
Proof.
  induction l as [|x l IH]; intros H; simpl; [reflexivity|].
  rewrite (H x (or_introl eq_refl)). apply IH.
  intros y Hy. apply H. right. exact Hy.
Qed.

(** ** Null counts and sizes *)

Lemma count_true_bounds (bs : list bool) :
  0 <= count_true bs <= Z.of_nat (length bs).
Proof.
  unfold count_true. split; [lia|].
  apply inj_le. apply filter_length_le.
Qed.

Lemma isnull_length (s : series) : length (isnull s) = size s.
Proof. destruct s; simpl; apply length_map. Qed.

Lemma null_count_bounds (c : column) :
  0 <= null_count c <= Z.of_nat (size (data c)).
Proof.
  unfold null_count. rewrite <- isnull_length. apply count_true_bounds.
Qed.

(** ** Well-formed tables, decided *)

Lemma distinct_labels_NoDup (ls : list string) :
  distinct_labels ls = true -> NoDup ls.
Proof.
  induction ls as [|l ls IH]; simpl; intros H; constructor.
  - apply andb_prop in H as [H _]. intros Hin.
    apply negb_true_iff in H.
    assert (existsb (String.eqb l) ls = true) as E.
    { apply existsb_exists. exists l. split; [assumption|apply String.eqb_refl]. }
    congruence.
  - apply IH. apply andb_prop in H as [_ H]. exact H.
Qed.

Lemma well_formedb_sound (df : DataFrame) :
  well_formedb df = true -> well_formed df.
Proof.
  unfold well_formedb. intros H. apply andb_prop in H as [H1 H2]. split.
  - apply distinct_labels_NoDup. exact H1.
  - apply Forall_forall. intros c Hc.
    rewrite forallb_forall in H2. apply Nat.eqb_eq. apply H2. exact Hc.
Qed.

Lemma wf_size (df : DataFrame) (c : column) :
  well_formed df -> In c (columns df) -> size (data c) = index_len df.
Proof.
  intros [_ H] Hin. rewrite Forall_forall in H. apply H. exact Hin.
Qed.

Lemma sales_wf : well_formed Samples.sales.
Proof. apply well_formedb_sound. reflexivity. Qed.

Lemma no_rows_wf : well_formed Samples.no_rows.
Proof. apply well_formedb_sound. reflexivity. Qed.

Lemma one_measure_wf : well_formed Samples.one_measure.
Proof. apply well_formedb_sound. reflexivity. Qed.

Lemma flat_and_rising_wf : well_formed Samples.flat_and_rising.
Proof. apply well_formedb_sound. reflexivity. Qed.

(* ------------------------------------------------------------------ *)
(** ** Data quality *)

Lemma isnull_sum_positive (df : DataFrame) :
  map fst (filter (fun kv => 0 <? snd kv) (isnull_sum df))
  = map label (filter has_nulls (columns df)).
Proof.
  unfold isnull_sum. fold null_count.
  change (fun c => (label c, count_true (isnull (data c))))
    with (fun c => (label c, null_count c)).
  rewrite filter_map_comm, map_map. simpl.
  f_equal. apply filter_ext. intros c. unfold has_nulls.
  pose proof (null_count_bounds c).
  destruct (Z.ltb_spec 0 (null_count c)), (Z.eqb_spec (null_count c) 0);
    simpl; auto; lia.
Qed.

Lemma missing_step (df : DataFrame) (c : column) :
  well_formed df -> In c (columns df) -> has_nulls c = true ->
  (n <- loc (isnull_sum df) (label c) ;;
   m <- loc (isnull_sum df) (label c) ;;
   q <- np_true_divide m (len df) ;;
   ret (MissingRecord (label c) n (times q 100)))
  = ([Division (null_count c) (len df)], Ok (missing_record_of df c)).
Proof.
  intros WF Hin Hn.
  unfold isnull_sum.
  change (fun c => (label c, count_true (isnull (data c))))
    with (fun c => (label c, null_count c)).
  rewrite (loc_in _ _ (wf_labels WF) Hin), !bind_ret.
  unfold np_true_divide. rewrite bind_ok. simpl.
  unfold has_nulls in Hn. apply negb_true_iff, Z.eqb_neq in Hn.
  pose proof (null_count_bounds c) as B.
  rewrite (wf_size c WF Hin) in B. fold (len df) in B.
  destruct (Z.eqb_spec (len df) 0) as [E|_]; [lia|].
  reflexivity.
Qed.

Lemma check_missing_data_run (df : DataFrame) :
  well_formed df ->
  check_missing_data df
  = (map (fun c => Division (null_count c) (len df))
         (filter has_nulls (columns df)),
     Ok (map (missing_record_of df) (filter has_nulls (columns df)))).
Proof.
  intros WF. unfold check_missing_data.
  rewrite isnull_sum_positive, mapM_map.
  rewrite (mapM_ok _ (fun c => [Division (null_count c) (len df)])
                   (missing_record_of df)).
  - rewrite flat_map_concat_map, <- (map_map _ (fun d => [d])).
    rewrite <- flat_map_concat_map. f_equal.
    induction (map _ _) as [|d l IH]; simpl; congruence.
  - intros c Hc. apply filter_In in Hc as [Hin Hn].
    apply missing_step; assumption.
Qed.

Lemma label_inj (cols : list column) (c c' : column) :
  NoDup (map label cols) -> In c cols -> In c' cols ->
  label c = label c' -> c = c'.
Proof.
  induction cols as [|c0 cols IH]; simpl; intros ND H H' E; [contradiction|].
  inversion ND as [|? ? Hnotin ND']; subst.
  destruct H as [->|H], H' as [->|H']; auto.
  - exfalso. apply Hnotin. rewrite E. apply in_map. assumption.
  - exfalso. apply Hnotin. rewrite <- E. apply in_map. assumption.
Qed.

(** C7: [check_missing_data] returns one record for each column whose
    null count is not zero, in the order of the table's columns, holding the
    column's label, its null count and the null count divided by the number
    of rows, times 100; a column without nulls has no record. *)
Theorem check_missing_data_one_record_per_column_with_nulls (df : DataFrame) :
  well_formed df ->
  exists records,
    outcome (check_missing_data df) = Ok records
    /\ records = map (missing_record_of df) (filter has_nulls (columns df))
    /\ (forall c, In c (columns df) -> null_count c = 0 ->
        ~ In (label c) (map mr_column records)).
Proof.
  intros WF. eexists. split; [|split].
  - rewrite (check_missing_data_run WF). reflexivity.
  - reflexivity.
  - intros c Hin Hz Hl. rewrite map_map in Hl. simpl in Hl.
    apply in_map_iff in Hl as (c' & E & Hc').
    apply filter_In in Hc' as [Hin' Hn].
    assert (c' = c) as -> by (eapply label_inj; eauto using wf_labels).
    unfold has_nulls in Hn. rewrite Hz in Hn. discriminate.
Qed.

Lemma check_missing_data_sales :
  well_formed Samples.sales
  /\ exists records,
       outcome (check_missing_data Samples.sales) = Ok records
       /\ records = map (missing_record_of Samples.sales)
                        (filter has_nulls (columns Samples.sales))
       /\ (forall c, In c (columns Samples.sales) -> null_count c = 0 ->
           ~ In (label c) (map mr_column records)).
Proof.
  split.
  - apply well_formedb_sound. reflexivity.
  - apply (@check_missing_data_one_record_per_column_with_nulls Samples.sales).
    apply well_formedb_sound. reflexivity.
Defined.

Example check_missing_data_sales_value :
  check_missing_data Samples.sales
  = ([Division 1 4; Division 1 4],
     Ok [MissingRecord "region" 1 (Fin (1 / 4 * 100));
         MissingRecord "amount" 1 (Fin (1 / 4 * 100))]).
Proof. reflexivity. Qed.

(* ------------------------------------------------------------------ *)
(** ** Running a computation *)

Lemma outcome_bind {A B} (m : M A) (f : A -> M B) :
  outcome (bind m f)
  = match outcome m with Ok a => outcome (f a) | Raise e => Raise e end.
Proof.
  destruct m as [t [a|e]]; simpl; [|reflexivity].
  destruct (f a); reflexivity.
Qed.

Lemma divisions_bind {A B} (m : M A) (f : A -> M B) :
  divisions (bind m f)
  = divisions m ++ match outcome m with
                   | Ok a => divisions (f a)
                   | Raise _ => []
                   end.
Proof.
  destruct m as [t [a|e]]; simpl.
  - destruct (f a); reflexivity.
  - rewrite app_nil_r. reflexivity.
Qed.

(* ------------------------------------------------------------------ *)
(** ** Numeric insight *)

Lemma somes_map_Some {A} (xs : list A) : somes (map Some xs) = xs.
Proof. induction xs as [|x xs IH]; simpl; congruence. Qed.

Lemma somes_length {A} (v : list (option A)) :
  (length (somes v) <= length v)%nat.
Proof.
  induction v as [|[x|] v IH]; simpl; lia.
Qed.

Lemma non_null_dropna (s : series) : non_null (dropna s) = non_null s.
Proof. destruct s; simpl; rewrite somes_map_Some; reflexivity. Qed.

Lemma nunique_dropna (s : series) : nunique (dropna s) = nunique s.
Proof. unfold nunique. rewrite non_null_dropna. reflexivity. Qed.

Lemma size_dropna (s : series) : (size (dropna s) <= size s)%nat.
Proof. destruct s; simpl; rewrite length_map; apply somes_length. Qed.

(** What [series.empty or is_likely_identifier(series, col, df)] gives on a
    column of a well-formed table: it never raises. *)
Lemma skip_test (df : DataFrame) (c : column) :
  well_formed df -> In c (columns df) ->
  outcome (if empty (dropna (data c)) then ret true
           else is_likely_identifier (dropna (data c)) (label c) df)
  = Ok (negb (eligible df c)).
Proof.
  intros WF Hin. unfold eligible, empty_after_dropna.
  destruct (empty (dropna (data c))) eqn:E; [reflexivity|].
  unfold is_likely_identifier. fold (named_like_identifier c).
  destruct (named_like_identifier c); [reflexivity|].
  unfold py_true_divide.
  assert (len df <> 0) as Hlen.
  { unfold empty in E. apply Nat.eqb_neq in E.
    pose proof (size_dropna (data c)) as Hs.
    rewrite (wf_size c WF Hin) in Hs. unfold len. lia. }
  destruct (Z.eqb_spec (len df) 0) as [|_]; [contradiction|].
  rewrite bind_ok. simpl. rewrite nunique_dropna.
  unfold mostly_distinct. simpl. rewrite negb_involutive. reflexivity.
Qed.

Lemma reduce_numeric {A} (f : list Q -> A) (c : column) :
  is_number c = true -> reduce f (dropna (data c)) = ret (f (numbers c)).
Proof.
  unfold is_number, numbers. destruct (data c); try discriminate.
  intros _. simpl. rewrite somes_map_Some. reflexivity.
Qed.

Section NumericInsightFacts.

Variable fixed : nat -> pyfloat -> string.

Lemma numeric_loop_outcome (df : DataFrame) (max_columns : Z)
    (beginner : bool) (WF : well_formed df) (cs : list column) :
  forall results,
  (forall c, In c cs -> In c (columns df) /\ is_number c = true) ->
  outcome (numeric_loop fixed df max_columns beginner (map label cs) results)
  = Ok (results ++ map (stats_of fixed beginner)
                       (until_cap max_columns (length results)
                                  (filter (eligible df) cs))).
Proof.
  induction cs as [|c cs IH]; intros results Hcs; simpl.
  - rewrite app_nil_r. reflexivity.
  - destruct (Hcs c (or_introl eq_refl)) as [Hin Hnum].
    assert (forall c', In c' cs -> In c' (columns df) /\ is_number c' = true)
      as Hcs' by (intros; apply Hcs; right; assumption).
    rewrite (getitem_in _ _ (wf_labels WF) Hin), bind_ret.
    rewrite outcome_bind, (skip_test c WF Hin).
    destruct (eligible df c); cbn [negb until_cap map].
    + unfold generate_numeric_insight.
      rewrite !(reduce_numeric _ c Hnum), !bind_ret.
      fold (stats_of fixed beginner c).
      assert (length (results ++ [stats_of fixed beginner c]) = S (length results))
        as L by (rewrite length_app, Nat.add_comm; reflexivity).
      rewrite L.
      destruct (Z.of_nat (S (length results)) >=? max_columns).
      * reflexivity.
      * rewrite IH by assumption. rewrite L, <- app_assoc. reflexivity.
    + apply IH. assumption.
Qed.

Lemma analyze_numeric_columns_outcome (df : DataFrame) (max_columns : Z)
    (beginner : bool) :
  well_formed df ->
  outcome (analyze_numeric_columns fixed df max_columns beginner)
  = Ok (map (stats_of fixed beginner)
            (until_cap max_columns 0
                       (filter (eligible df) (filter is_number (columns df))))).
Proof.
  intros WF. unfold analyze_numeric_columns. simpl.
  rewrite (numeric_loop_outcome _ _ WF).
  - reflexivity.
  - intros c Hc. apply filter_In in Hc. exact Hc.
Qed.

Lemma until_cap_incl {A} (max_columns : Z) (kept : list A) :
  forall have, incl (until_cap max_columns have kept) kept.
Proof.
  induction kept as [|x kept IH]; intros have y Hy; simpl in *; [assumption|].
  destruct Hy as [->|Hy]; [left; reflexivity|].
  destruct (_ >=? _); [contradiction|]. right. eapply IH. exact Hy.
Qed.

Lemma until_cap_length {A} (max_columns : Z) (kept : list A) :
  forall have,
  Z.of_nat have < max_columns ->
  Z.of_nat (have + length (until_cap max_columns have kept)) <= max_columns.
Proof.
  induction kept as [|x kept IH]; intros have H; cbn [until_cap length];
    [lia|].
  destruct (Z.geb_spec (Z.of_nat (S have)) max_columns) as [Hge|Hlt].
  - cbn [length]. lia.
  - specialize (IH (S have) ltac:(lia)). lia.
Qed.

End NumericInsightFacts.

(** The checks in the words of the specification. *)
Lemma empty_after_dropna_spec (c : column) :
  empty_after_dropna c = true <-> non_null (data c) = [].
Proof.
  unfold empty_after_dropna, empty. rewrite Nat.eqb_eq.
  destruct (data c) as [v|v|v|v]; simpl; rewrite length_map;
    destruct (somes v); simpl; split; intros H;
    reflexivity || discriminate.
Qed.

Lemma mostly_distinct_spec (df : DataFrame) (c : column) :
  mostly_distinct df c = true
  <-> (95 # 100 < inject_Z (nunique (data c)) / inject_Z (len df))%Q.
Proof.
  unfold mostly_distinct, gt. rewrite negb_true_iff.
  split; intros H.
  - apply Qnot_le_lt. intros Hle. apply Qle_bool_iff in Hle. congruence.
  - destruct (Qle_bool _ _) eqn:E; [|reflexivity].
    apply Qle_bool_iff in E. exfalso. eapply Qlt_not_le; eauto.
Qed.

Lemma eligible_spec (df : DataFrame) (c : column) :
  eligible df c = true <-> ~ excluded df c.
Proof.
  unfold eligible, excluded.
  rewrite !andb_true_iff, !negb_true_iff.
  rewrite <- empty_after_dropna_spec, <- mostly_distinct_spec.
  unfold named_like_identifier.
  destruct (empty_after_dropna c), (mostly_distinct df c),
    (contains "id" (lower (label c))), (contains "uuid" (lower (label c)));
    simpl; intuition congruence.
Qed.

Section NumericInsightClaims.

Variable fixed : nat -> pyfloat -> string.

(** From one record on, the cap holds: with a maximum of at least 1, no
    more than [max_columns] records are returned. *)
Lemma analyze_numeric_columns_at_most_cap (df : DataFrame) (max_columns : Z)
    (beginner : bool) :
  well_formed df -> 1 <= max_columns ->
  exists records,
    outcome (analyze_numeric_columns fixed df max_columns beginner)
    = Ok records
    /\ Z.of_nat (length records) <= max_columns.
Proof.
  intros WF Hmax. eexists. split.
  - apply analyze_numeric_columns_outcome. exact WF.
  - rewrite length_map.
    apply (@until_cap_length _ max_columns
             (filter (eligible df) (filter is_number (columns df))) 0%nat).
    simpl. lia.
Qed.

(** C1, at the input where it fails: asked for at most 0 columns, the
    analysis of a table with one usable numeric column returns one record,
    because the cap is only looked at after a record has been appended. *)
Theorem analyze_numeric_columns_cap_zero_returns_one (beginner : bool) :
  exists records,
    outcome (analyze_numeric_columns fixed Samples.one_measure 0 beginner)
    = Ok records
    /\ length records = 1%nat
    /\ ~ Z.of_nat (length records) <= 0.
Proof.
  eexists. split; [|split].
  - rewrite (analyze_numeric_columns_outcome fixed 0 beginner
               one_measure_wf).
    reflexivity.
  - reflexivity.
  - simpl. lia.
Qed.

(** C4: a numeric column that is empty once its nulls are dropped, or
    whose lower-cased label contains "id" or "uuid", or whose number of
    distinct non-null values divided by the number of rows is above 0.95,
    has no record in the result of [analyze_numeric_columns]; and every
    record of the result is the record of a numeric column of the table
    that passes the three checks. *)
Theorem analyze_numeric_columns_identifier_exclusion (df : DataFrame)
    (max_columns : Z) (beginner : bool) :
  well_formed df ->
  exists records,
    outcome (analyze_numeric_columns fixed df max_columns beginner)
    = Ok records
    /\ (forall c, In c (columns df) -> is_number c = true ->
        excluded df c -> ~ In (label c) (map ns_column records))
    /\ (forall r, In r records ->
        exists c, In c (columns df) /\ is_number c = true
                  /\ r = stats_of fixed beginner c
                  /\ ~ excluded df c).
Proof.
  intros WF. eexists. split; [|split].
  - apply analyze_numeric_columns_outcome. exact WF.
  - intros c Hin Hnum Hex Hl. rewrite map_map in Hl. simpl in Hl.
    apply in_map_iff in Hl as (c' & E & Hc').
    apply until_cap_incl in Hc'. apply filter_In in Hc' as [Hc' Hel].
    apply filter_In in Hc' as [Hin' _].
    assert (c' = c) as -> by (eapply label_inj; eauto using wf_labels).
    apply eligible_spec in Hel. contradiction.
  - intros r Hr. apply in_map_iff in Hr as (c & E & Hc).
    apply until_cap_incl in Hc. apply filter_In in Hc as [Hc Hel].
    apply filter_In in Hc as [Hin Hnum].
    exists c. repeat split; auto. apply eligible_spec. exact Hel.
Qed.

(** C8: every record returned by [analyze_numeric_columns] has an
    outlier count of 0, whatever the table, the maximum and the
    verbosity flag. *)
Theorem analyze_numeric_columns_outlier_count_zero (df : DataFrame)
    (max_columns : Z) (beginner : bool) :
  well_formed df ->
  exists records,
    outcome (analyze_numeric_columns fixed df max_columns beginner)
    = Ok records
    /\ Forall (fun r => ns_outlier_count r = 0) records.
Proof.
  intros WF. eexists. split.
  - apply analyze_numeric_columns_outcome. exact WF.
  - apply Forall_forall. intros r Hr.
    apply in_map_iff in Hr as (c & <- & _). reflexivity.
Qed.

End NumericInsightClaims.

Example insight_for_units :
  outcome (generate_numeric_insight Samples.fixed "units"
             (Numeric [Some 1; Some 1; Some 2; Some 3]%Q) true)
  = Ok "This column shows units. Most values are around 1.8. Values usually fall between 1.0 and 3.0.".
Proof. reflexivity. Qed.

Example sales_numeric_columns :
  map ns_column
      (map (stats_of Samples.fixed true)
           (until_cap 3 0 (filter (eligible Samples.sales)
                                  (filter is_number (columns Samples.sales)))))
  = ["amount"; "units"].
Proof. reflexivity. Qed.

Lemma analyze_numeric_columns_identifier_exclusion_sales :
  well_formed Samples.sales
  /\ exists records,
       outcome (analyze_numeric_columns Samples.fixed Samples.sales 3 true)
       = Ok records
       /\ (forall c, In c (columns Samples.sales) -> is_number c = true ->
           excluded Samples.sales c -> ~ In (label c) (map ns_column records))
       /\ (forall r, In r records ->
           exists c, In c (columns Samples.sales) /\ is_number c = true
                     /\ r = stats_of Samples.fixed true c
                     /\ ~ excluded Samples.sales c).
Proof.
  split.
  - apply well_formedb_sound. reflexivity.
  - apply (@analyze_numeric_columns_identifier_exclusion
             Samples.fixed Samples.sales 3 true).
    apply well_formedb_sound. reflexivity.
Defined.

Lemma analyze_numeric_columns_outlier_count_zero_sales :
  well_formed Samples.sales
  /\ exists records,
       outcome (analyze_numeric_columns Samples.fixed Samples.sales 3 false)
       = Ok records
       /\ Forall (fun r => ns_outlier_count r = 0) records.
Proof.
  split.
  - apply well_formedb_sound. reflexivity.
  - apply (@analyze_numeric_columns_outlier_count_zero
             Samples.fixed Samples.sales 3 false).
    apply well_formedb_sound. reflexivity.
Defined.

(* ------------------------------------------------------------------ *)
(** ** Tables without rows *)

Lemma no_rows_no_nulls (df : DataFrame) (c : column) :
  well_formed df -> index_len df = 0%nat -> In c (columns df) ->
  has_nulls c = false.
Proof.
  intros WF Hz Hin. unfold has_nulls.
  pose proof (null_count_bounds c) as B.
  rewrite (wf_size c WF Hin), Hz in B.
  destruct (Z.eqb_spec (null_count c) 0); [reflexivity|simpl in B; lia].
Qed.

Lemma no_rows_empty (df : DataFrame) (c : column) :
  well_formed df -> index_len df = 0%nat -> In c (columns df) ->
  empty (dropna (data c)) = true.
Proof.
  intros WF Hz Hin. unfold empty. apply Nat.eqb_eq.
  pose proof (size_dropna (data c)) as Hs.
  rewrite (wf_size c WF Hin), Hz in Hs. lia.
Qed.

Section NoRows.

Variable fixed : nat -> pyfloat -> string.

Lemma numeric_loop_no_rows (df : DataFrame) (max_columns : Z)
    (beginner : bool) (cs : list column) (results : list numeric_stats) :
  well_formed df -> index_len df = 0%nat -> incl cs (columns df) ->
  numeric_loop fixed df max_columns beginner (map label cs) results
  = ([], Ok results).
Proof.
  intros WF Hz. induction cs as [|c cs IH]; intros Hcs; simpl.
  - reflexivity.
  - assert (In c (columns df)) as Hin by (apply Hcs; left; reflexivity).
    rewrite (getitem_in _ _ (wf_labels WF) Hin), bind_ret.
    rewrite (no_rows_empty c WF Hz Hin), bind_ret.
    apply IH. intros c' Hc'. apply Hcs. right. exact Hc'.
Qed.

(** C10: on a table with no rows, [check_missing_data] and
    [analyze_numeric_columns] both return the empty sequence and neither
    evaluates a division by the row count: the log of divisions of each
    run is empty and no exception is raised. *)
Theorem no_rows_no_division (df : DataFrame) (max_columns : Z)
    (beginner : bool) :
  well_formed df -> len df = 0 ->
  check_missing_data df = ([], Ok [])
  /\ analyze_numeric_columns fixed df max_columns beginner = ([], Ok []).
Proof.
  intros WF Hz. assert (index_len df = 0%nat) as Hz' by (unfold len in Hz; lia).
  split.
  - rewrite (check_missing_data_run WF).
    assert (filter has_nulls (columns df) = []) as ->; [|reflexivity].
    apply filter_none. intros c Hc. apply (no_rows_no_nulls c WF Hz' Hc).
  - apply numeric_loop_no_rows; auto.
    simpl. intros c Hc. apply filter_In in Hc. tauto.
Qed.

End NoRows.

Lemma no_rows_no_division_sample :
  (well_formed Samples.no_rows /\ len Samples.no_rows = 0)
  /\ check_missing_data Samples.no_rows = ([], Ok [])
  /\ analyze_numeric_columns Samples.fixed Samples.no_rows 3 true = ([], Ok []).
Proof.
  split.
  - split; [apply well_formedb_sound|]; reflexivity.
  - apply (@no_rows_no_division Samples.fixed Samples.no_rows 3 true).
    + apply well_formedb_sound. reflexivity.
    + reflexivity.
Defined.

(* ------------------------------------------------------------------ *)
(** ** Pearson's r *)

Module PearsonFacts.

Import Pearson.
Local Open Scope R_scope.

Lemma complete_swap (xs : list (option Q)) :
  forall ys, complete ys xs = map swap (complete xs ys).
Proof.
  induction xs as [|[x|] xs IH]; intros [|[y|] ys]; simpl;
    try rewrite IH; reflexivity.
Qed.

Lemma complete_diag (xs : list (option Q)) :
  complete xs xs = map (fun x => (x, x)) (somes xs).
Proof.
  induction xs as [|[x|] xs IH]; simpl; try rewrite IH; reflexivity.
Qed.

Lemma mean_swap (f : Q * Q -> R) (obs : list (Q * Q)) :
  mean f (map swap obs) = mean (fun p => f (swap p)) obs.
Proof. unfold mean. rewrite map_map, length_map. reflexivity. Qed.

Lemma codev_swap (f g : Q * Q -> R) (obs : list (Q * Q)) :
  codev f g (map swap obs)
  = codev (fun p => f (swap p)) (fun p => g (swap p)) obs.
Proof. unfold codev. rewrite map_map, !mean_swap. reflexivity. Qed.

Lemma codev_comm (f g : Q * Q -> R) (obs : list (Q * Q)) :
  codev f g obs = codev g f obs.
Proof.
  unfold codev. f_equal. apply map_ext. intros p. apply Rmult_comm.
Qed.

(** Pearson's r does not depend on which column comes first. *)
Lemma r_swap (obs : list (Q * Q)) : r (map swap obs) = r obs.
Proof.
  destruct obs as [|p obs]; [reflexivity|].
  unfold r. change (map swap (p :: obs)) with (swap p :: map swap obs).
  cbv iota. change (swap p :: map swap obs) with (map swap (p :: obs)).
  rewrite !codev_swap.
  change (fun p => xval (swap p)) with yval.
  change (fun p => yval (swap p)) with xval.
  rewrite (Rmult_comm (codev yval yval _)), (codev_comm yval xval).
  reflexivity.
Qed.

Lemma r_symmetric (xs ys : list (option Q)) :
  r (complete xs ys) = r (complete ys xs).
Proof. rewrite (complete_swap xs ys), r_swap. reflexivity. Qed.

(** *** A column against itself *)

Lemma rsum_nonneg (l : list R) : Forall (fun x => 0 <= x) l -> 0 <= rsum l.
Proof.
  induction 1 as [|x l Hx _ IH]; simpl; lra.
Qed.

Lemma rsum_zero (l : list R) :
  Forall (fun x => 0 <= x) l -> rsum l = 0 -> Forall (fun x => x = 0) l.
Proof.
  induction 1 as [|x l Hx Hl IH]; simpl; intros H; constructor.
  - pose proof (rsum_nonneg Hl). lra.
  - apply IH. pose proof (rsum_nonneg Hl). lra.
Qed.

Lemma rsum_const (a : R) {A} (l : list A) :
  rsum (map (fun _ => a) l) = INR (length l) * a.
Proof.
  induction l as [|x l IH].
  - simpl. lra.
  - cbn [map rsum fold_right length]. fold (rsum (map (fun _ => a) l)).
    rewrite IH, S_INR. lra.
Qed.

Lemma square_nonneg (a : R) : 0 <= a * a.
Proof. apply (Rle_0_sqr a). Qed.

Lemma square_zero (a b : R) : (a - b) * (a - b) = 0 -> a = b.
Proof. intros H. apply Rmult_integral in H. lra. Qed.

Lemma spread_nonneg (zs : list Q) : 0 <= spread zs.
Proof.
  unfold spread, codev. apply rsum_nonneg.
  apply Forall_forall. intros x Hx.
  apply in_map_iff in Hx as (p & <- & _). apply square_nonneg.
Qed.

Lemma spread_of_constant (z : Q) (zs : list Q) :
  forallb (Qeq_bool z) zs = true -> spread (z :: zs) = 0.
Proof.
  intros H. rewrite forallb_forall in H.
  assert (forall p, In p (map (fun z => (z, z)) (z :: zs)) ->
          xval p = Q2R z) as Hval.
  { intros p Hp. apply in_map_iff in Hp as (z' & <- & [->|Hz']).
    - reflexivity.
    - unfold xval. simpl. symmetry. apply Qeq_eqR.
      apply Qeq_bool_iff. apply H. exact Hz'. }
  set (obs := map (fun z => (z, z)) (z :: zs)) in *.
  assert (mean xval obs = Q2R z) as Hmean.
  { unfold mean.
    rewrite (map_ext_in xval (fun _ => Q2R z) obs Hval), rsum_const.
    assert (INR (length obs) <> 0) as Hn.
    { unfold obs. simpl length. apply not_0_INR. discriminate. }
    field. exact Hn. }
  unfold spread. fold obs. unfold codev. rewrite Hmean.
  rewrite (map_ext_in _ (fun _ => 0)).
  - rewrite rsum_const. lra.
  - intros p Hp. rewrite (Hval p Hp). lra.
Qed.

Lemma constant_of_no_spread (zs : list Q) :
  spread zs = 0 -> constant zs = true.
Proof.
  destruct zs as [|z zs]; [reflexivity|].
  intros H. unfold spread, codev in H.
  apply rsum_zero in H.
  - set (obs := map (fun z => (z, z)) (z :: zs)) in *.
    rewrite Forall_forall in H.
    assert (forall z', In z' (z :: zs) -> Q2R z' = mean xval obs) as Heq.
    { intros z' Hz'.
      assert (In ((Q2R z' - mean xval obs) * (Q2R z' - mean xval obs))
                 (map (fun p => (xval p - mean xval obs)
                                * (xval p - mean xval obs)) obs)) as Hin.
      { apply in_map_iff. exists (z', z'). split; [reflexivity|].
        unfold obs. apply in_map_iff. exists z'. auto. }
      apply H in Hin. apply square_zero. exact Hin. }
    simpl. apply forallb_forall. intros z' Hz'.
    apply Qeq_bool_iff. apply eqR_Qeq.
    rewrite (Heq z (or_introl eq_refl)), (Heq z' (or_intror Hz')).
    reflexivity.
  - apply Forall_forall. intros x Hx.
    apply in_map_iff in Hx as (p & <- & _). apply square_nonneg.
Qed.

(** The coefficient of a column with itself: 1 when its values vary,
    NaN when they do not (or when there is none). *)
Lemma r_diag (xs : list (option Q)) :
  r (complete xs xs)
  = if constant (somes xs) then RNaN else RVal 1.
Proof.
  rewrite complete_diag.
  destruct (somes xs) as [|z zs] eqn:E; [reflexivity|].
  set (obs := map (fun x => (x, x)) (z :: zs)).
  assert (codev yval yval obs = spread (z :: zs)
          /\ codev xval yval obs = spread (z :: zs)) as [Hy Hxy].
  { unfold spread. fold obs. unfold codev, mean.
    assert (forall p, In p obs -> yval p = xval p) as Hp.
    { intros p Hp. apply in_map_iff in Hp as (x & <- & _). reflexivity. }
    rewrite (map_ext_in yval xval obs Hp). split.
    - f_equal. apply map_ext_in. intros p Hin. rewrite (Hp p Hin).
      reflexivity.
    - f_equal. apply map_ext_in. intros p Hin. rewrite (Hp p Hin).
      reflexivity. }
  unfold r. unfold obs at 1. cbn [map]. fold obs.
  change (codev xval xval obs) with (spread (z :: zs)).
  rewrite Hy, Hxy.
  pose proof (spread_nonneg (z :: zs)) as Hpos.
  rewrite (sqrt_square _ Hpos).
  destruct (Req_EM_T (spread (z :: zs)) 0) as [Hz|Hnz].
  - rewrite (constant_of_no_spread _ Hz). reflexivity.
  - destruct (constant (z :: zs)) eqn:Hc.
    + exfalso. apply Hnz. apply spread_of_constant. exact Hc.
    + f_equal. unfold clip.
      replace (spread (z :: zs) / spread (z :: zs)) with 1
        by (field; exact Hnz).
      destruct (Rgt_dec 1 1); [lra|].
      destruct (Rlt_dec 1 (-1)); [lra|]. reflexivity.
Qed.

End PearsonFacts.

(* ------------------------------------------------------------------ *)
(** ** Sorted lists *)

Lemma firstn_incl {A} (n : nat) (l : list A) : incl (firstn n l) l.
Proof.
  revert n. induction l as [|x l IH]; intros [|n] y Hy; simpl in *;
    try contradiction.
  destruct Hy as [->|Hy]; [left; reflexivity|right; eapply IH; exact Hy].
Qed.

Lemma nth_map_default {A B} (f : A -> B) (l : list A) (d : A) (d' : B)
    (i : nat) :
  (i < length l)%nat -> nth i (map f l) d' = f (nth i l d).
Proof.
  intros H. rewrite (nth_indep _ d' (f d)) by (rewrite length_map; exact H).
  apply map_nth.
Qed.

Section SortedLists.

Context {A : Type} (R : A -> A -> Prop).

Lemma StronglySorted_app (l1 l2 : list A) :
  StronglySorted R l1 -> StronglySorted R l2 ->
  (forall x y, In x l1 -> In y l2 -> R x y) ->
  StronglySorted R (l1 ++ l2).
Proof.
  induction 1 as [|a l1 S1 IH F1]; intros S2 H; simpl; [assumption|].
  constructor.
  - apply IH; [assumption|]. intros; apply H; [right|]; assumption.
  - apply Forall_app. split; [assumption|].
    apply Forall_forall. intros y Hy. apply H; [left; reflexivity|assumption].
Qed.

Lemma StronglySorted_filter (p : A -> bool) (l : list A) :
  StronglySorted R l -> StronglySorted R (filter p l).
Proof.
  induction 1 as [|a l S IH F]; simpl; [constructor|].
  destruct (p a); [|assumption].
  constructor; [assumption|].
  apply Forall_forall. intros y Hy. apply filter_In in Hy as [Hy _].
  rewrite Forall_forall in F. apply F. exact Hy.
Qed.

Lemma StronglySorted_firstn (n : nat) (l : list A) :
  StronglySorted R l -> StronglySorted R (firstn n l).
Proof.
  intros S. revert n. induction S as [|a l S IH F]; intros [|n]; simpl;
    try constructor.
  - apply IH.
  - apply Forall_forall. intros y Hy. apply firstn_incl in Hy.
    rewrite Forall_forall in F. apply F. exact Hy.
Qed.

Lemma StronglySorted_NoDup (l : list A) :
  (forall x, ~ R x x) -> StronglySorted R l -> NoDup l.
Proof.
  intros Irr. induction 1 as [|a l S IH F]; constructor; [|assumption].
  intros Hin. rewrite Forall_forall in F. apply (Irr a). apply F. exact Hin.
Qed.

End SortedLists.

Lemma StronglySorted_map {A B} (R : B -> B -> Prop) (f : A -> B) (l : list A) :
  StronglySorted (fun x y => R (f x) (f y)) l -> StronglySorted R (map f l).
Proof.
  induction 1 as [|a l S IH F]; simpl; constructor; [assumption|].
  apply Forall_map. exact F.
Qed.

Lemma seq_increasing (len start : nat) : StronglySorted lt (seq start len).
Proof.
  revert start. induction len as [|len IH]; intros start; simpl; constructor.
  - apply IH.
  - apply Forall_forall. intros y Hy. apply in_seq in Hy. lia.
Qed.

Lemma kept_labels_NoDup (keep : column -> bool) (cols : list column) :
  NoDup (map label cols) -> NoDup (map label (filter keep cols)).
Proof.
  induction cols as [|c cols IH]; simpl; intros ND; [constructor|].
  inversion ND as [|? ? Hnotin ND']; subst.
  destruct (keep c); simpl; [constructor|]; auto.
  intros Hin. apply Hnotin. apply in_map_iff in Hin as (c' & E & Hc').
  apply filter_In in Hc' as [Hc' _]. rewrite <- E. apply in_map. exact Hc'.
Qed.

Lemma NoDup_image {A B} (l : list A) (f : A -> B) :
  NoDup l ->
  (forall a b, In a l -> In b l -> f a = f b -> a = b) ->
  NoDup (map f l).
Proof.
  intros ND. induction ND as [|x l Hnotin ND IH]; intros Inj; simpl;
    constructor.
  - intros Hin. apply in_map_iff in Hin as (y & E & Hy).
    apply Hnotin. rewrite (Inj x y); auto; [left|right]; auto.
  - apply IH. intros; apply Inj; auto; right; assumption.
Qed.

(* ------------------------------------------------------------------ *)
(** ** Correlations *)

Lemma flat_map_nil {A B} (l : list A) : flat_map (fun _ => @nil B) l = [].
Proof. induction l; simpl; auto. Qed.

Lemma corr_numeric (df : DataFrame) :
  corr (select_dtypes df is_number) = ret (correlation_matrix df).
Proof.
  unfold corr. simpl. fold (numeric_columns df).
  rewrite (mapM_ok to_float (fun _ => []) floats).
  - rewrite flat_map_nil. reflexivity.
  - intros c Hc. apply filter_In in Hc as [_ Hnum].
    unfold to_float, floats, is_number in *.
    destruct (data c); try discriminate. reflexivity.
Qed.

(** The cell [(i, j)] of the matrix is Pearson's r of the [i]-th and
    [j]-th numeric columns. *)
Lemma iloc_correlation_matrix (df : DataFrame) (i j : nat) :
  let mat := map floats (numeric_columns df) in
  iloc (correlation_matrix df) i j
  = if (i <? length mat)%nat && (j <? length mat)%nat
    then Pearson.r (Pearson.complete (nth i mat []) (nth j mat []))
    else RNaN.
Proof.
  intros mat. unfold iloc, correlation_matrix. fold mat. simpl cm_rows.
  destruct (Nat.ltb_spec i (length mat)) as [Hi|Hi]; simpl.
  - rewrite (nth_map_default _ mat [] [] Hi).
    destruct (Nat.ltb_spec j (length mat)) as [Hj|Hj].
    + rewrite (nth_map_default _ mat [] RNaN Hj). reflexivity.
    + apply nth_overflow. rewrite length_map. exact Hj.
  - rewrite (nth_overflow _ []) by (rewrite length_map; exact Hi).
    destruct j; reflexivity.
Qed.

Lemma upper_triangle_in (n i j : nat) :
  In (i, j) (upper_triangle n) <-> (i < j < n)%nat.
Proof.
  unfold upper_triangle, range. rewrite in_flat_map. split.
  - intros (i' & Hi' & Hin). apply in_map_iff in Hin as (j' & E & Hj').
    inversion E; subst. apply in_seq in Hi', Hj'. lia.
  - intros H. exists i. split.
    + apply in_seq. lia.
    + apply in_map. apply in_seq. lia.
Qed.

Lemma row_sorted (i : nat) (js : list nat) :
  StronglySorted lt js -> StronglySorted row_major (map (pair i) js).
Proof.
  induction 1 as [|j js S IH F]; simpl; constructor; [exact IH|].
  apply Forall_map. eapply Forall_impl; [|exact F].
  intros j' Hj'. right. simpl. auto.
Qed.

Lemma rows_sorted (n len : nat) :
  forall start,
  StronglySorted row_major
    (flat_map (fun i => map (pair i) (range (i + 1) n)) (seq start len)).
Proof.
  induction len as [|len IH]; intros start; cbn [seq flat_map];
    [constructor|].
  apply StronglySorted_app.
  - apply row_sorted, seq_increasing.
  - apply IH.
  - intros x y Hx Hy. apply in_map_iff in Hx as (j & <- & _).
    apply in_flat_map in Hy as (i' & Hi' & Hy).
    apply in_map_iff in Hy as (j' & <- & _).
    apply in_seq in Hi'. left. simpl. lia.
Qed.

Lemma upper_triangle_sorted (n : nat) :
  StronglySorted row_major (upper_triangle n).
Proof. apply rows_sorted. Qed.

Lemma row_major_irrefl (a : nat * nat) : ~ row_major a a.
Proof. unfold row_major. lia. Qed.

(** The two loops of [find_correlations] keep the cells of the upper
    triangle that pass the test, in order. *)
Lemma loops_as_filter {B} (test : nat * nat -> bool) (f : nat * nat -> B)
    (cols_of : nat -> list nat) (rows : list nat) :
  flat_map (fun i => flat_map (fun j => if test (i, j) then [f (i, j)] else [])
                              (cols_of i)) rows
  = map f (filter test (flat_map (fun i => map (pair i) (cols_of i)) rows)).
Proof.
  induction rows as [|i rows IH]; simpl; [reflexivity|].
  rewrite filter_app, map_app, IH. f_equal.
  induction (cols_of i) as [|j js IHj]; simpl; [reflexivity|].
  destruct (test (i, j)); simpl; rewrite IHj; reflexivity.
Qed.

Lemma find_correlations_run (df : DataFrame) (threshold : R) :
  find_correlations df threshold
  = ret (if (length (numeric_columns df) <? 2)%nat then []
         else map (pair_at (correlation_matrix df))
                  (filter (meets (correlation_matrix df) threshold)
                          (upper_triangle (length (numeric_columns df))))).
Proof.
  unfold find_correlations, shape1. simpl columns. fold (numeric_columns df).
  destruct (Nat.ltb_spec (length (numeric_columns df)) 2) as [H|H].
  - destruct (Z.ltb_spec (Z.of_nat (length (numeric_columns df))) 2);
      [reflexivity|lia].
  - destruct (Z.ltb_spec (Z.of_nat (length (numeric_columns df))) 2); [lia|].
    rewrite corr_numeric, bind_ret. f_equal.
    simpl cm_columns. rewrite length_map.
    apply (loops_as_filter (meets (correlation_matrix df) threshold)
             (pair_at (correlation_matrix df))
             (fun i => range (i + 1) (length (numeric_columns df)))).
Qed.

Lemma abs_ge_spec (c : rfloat) (t : R) :
  abs_ge c t = true <-> exists r, c = RVal r /\ (Rabs r >= t)%R.
Proof.
  destruct c as [|r]; simpl.
  - split; [discriminate|]. intros (r & E & _). discriminate.
  - destruct (Rge_dec (Rabs r) t) as [H|H]; split; auto.
    + intros _. exists r. auto.
    + discriminate.
    + intros (r' & E & H'). inversion E; subst. contradiction.
Qed.

Lemma positive_spec (c : rfloat) :
  positive c = true <-> exists r, c = RVal r /\ (r > 0)%R.
Proof.
  destruct c as [|r]; simpl.
  - split; [discriminate|]. intros (r & E & _). discriminate.
  - destruct (Rgt_dec r 0) as [H|H]; split; auto.
    + intros _. exists r. auto.
    + discriminate.
    + intros (r' & E & H'). inversion E; subst. contradiction.
Qed.

Lemma numeric_labels_NoDup (df : DataFrame) :
  well_formed df -> NoDup (map label (numeric_columns df)).
Proof. intros WF. apply kept_labels_NoDup. apply (wf_labels WF). Qed.

Lemma names_of_pair_at (df : DataFrame) (cells : list (nat * nat)) :
  map names_of (map (pair_at (correlation_matrix df)) cells)
  = map (labels_at df) cells.
Proof.
  rewrite map_map. apply map_ext. intros [i j]. reflexivity.
Qed.

Lemma labels_at_inj (df : DataFrame) (a b : nat * nat) :
  well_formed df ->
  (fst a < length (numeric_columns df))%nat ->
  (snd a < length (numeric_columns df))%nat ->
  (fst b < length (numeric_columns df))%nat ->
  (snd b < length (numeric_columns df))%nat ->
  labels_at df a = labels_at df b -> a = b.
Proof.
  intros WF Ha1 Ha2 Hb1 Hb2 E. unfold labels_at in E.
  pose proof (proj1 (NoDup_nth _ "") (numeric_labels_NoDup WF)) as Inj.
  rewrite length_map in Inj.
  inversion E as [[E1 E2]].
  apply Inj in E1; auto. apply Inj in E2; auto.
  destruct a, b; simpl in *; congruence.
Qed.

(** C5: every pair returned by [find_correlations] has an absolute
    coefficient of at least the threshold; the pairs are the cells [(i, j)]
    with [i < j] of the matrix over the numeric columns in table order, read
    row by row (all of those that pass the test), so that no pair comes
    twice, none comes in both orders and none pairs a column with itself; the direction is "positive" exactly when
    the coefficient is above 0 and "negative" otherwise; and with fewer than
    two numeric columns the result is empty. *)
Theorem find_correlations_upper_triangle (df : DataFrame) (threshold : R) :
  well_formed df ->
  exists pairs cells,
    find_correlations df threshold = ret pairs
    /\ pairs = map (pair_at (correlation_matrix df)) cells
    /\ map names_of pairs = map (labels_at df) cells
    /\ StronglySorted row_major cells
    /\ Forall (fun ij => (fst ij < snd ij < length (numeric_columns df))%nat)
              cells
    /\ (forall i j, (i < j < length (numeric_columns df))%nat ->
        abs_ge (iloc (correlation_matrix df) i j) threshold = true ->
        In (i, j) cells)
    /\ Forall (fun p => exists r, correlation p = RVal r
                                  /\ (Rabs r >= threshold)%R) pairs
    /\ Forall (fun p =>
                 (direction p = "positive"
                  <-> exists r, correlation p = RVal r /\ (r > 0)%R)
                 /\ (direction p = "positive" \/ direction p = "negative"))
              pairs
    /\ NoDup (map names_of pairs)
    /\ (forall a b, In (a, b) (map names_of pairs) ->
        a <> b /\ ~ In (b, a) (map names_of pairs))
    /\ ((length (numeric_columns df) < 2)%nat -> pairs = []).
Proof.
  intros WF.
  set (m := correlation_matrix df). set (n := length (numeric_columns df)).
  set (cells := if (n <? 2)%nat then []
                else filter (meets m threshold) (upper_triangle n)).
  assert (forall ij, In ij cells ->
          In ij (upper_triangle n) /\ meets m threshold ij = true) as Hcells.
  { intros ij. unfold cells. destruct (n <? 2)%nat; [contradiction|].
    apply filter_In. }
  assert (forall ij, In ij cells -> (fst ij < snd ij < n)%nat) as Hbound.
  { intros [i j] Hij. apply Hcells in Hij as [Hij _].
    apply upper_triangle_in in Hij. exact Hij. }
  exists (map (pair_at m) cells), cells.
  split; [|split; [|split; [|split; [|split; [|split; [|split; [|split;
    [|split; [|split]]]]]]]]].
  - rewrite find_correlations_run. fold n m. unfold cells.
    destruct (n <? 2)%nat; reflexivity.
  - reflexivity.
  - apply names_of_pair_at.
  - unfold cells. destruct (n <? 2)%nat; [constructor|].
    apply StronglySorted_filter, upper_triangle_sorted.
  - apply Forall_forall. exact Hbound.
  - intros i j Hij Hmeets. unfold cells. fold n in Hij.
    destruct (Nat.ltb_spec n 2); [lia|].
    apply filter_In. split; [apply upper_triangle_in; exact Hij|exact Hmeets].
  - apply Forall_forall. intros p Hp.
    apply in_map_iff in Hp as ([i j] & <- & Hij).
    apply Hcells in Hij as [_ Hij]. apply abs_ge_spec. exact Hij.
  - apply Forall_forall. intros p Hp.
    apply in_map_iff in Hp as ([i j] & <- & _). simpl.
    rewrite <- positive_spec.
    destruct (positive (iloc m i j)); split; auto; split; auto; discriminate.
  - unfold m. rewrite names_of_pair_at. apply NoDup_image.
    + apply StronglySorted_NoDup with (R := row_major).
      * apply row_major_irrefl.
      * unfold cells. destruct (n <? 2)%nat; [constructor|].
        apply StronglySorted_filter, upper_triangle_sorted.
    + intros a b Ha Hb. apply Hbound in Ha, Hb.
      apply labels_at_inj; auto; lia.
  - unfold m. rewrite names_of_pair_at. intros a b Hab.
    apply in_map_iff in Hab as ([i j] & E & Hij).
    pose proof (Hbound _ Hij) as Bij. simpl in Bij. split.
    + intros ->. inversion E as [[E1 E2]].
      assert ((i, i) = (i, j)) as E'.
      { apply (@labels_at_inj df (i, i) (i, j) WF); simpl; try (fold n; lia).
        unfold labels_at. simpl. congruence. }
      inversion E'. lia.
    + intros Hba. apply in_map_iff in Hba as ([i' j'] & E' & Hij').
      pose proof (Hbound _ Hij') as Bij'. simpl in Bij'.
      assert ((i', j') = (j, i)) as E''.
      { apply (@labels_at_inj df (i', j') (j, i) WF); simpl; try (fold n; lia).
        unfold labels_at in *. simpl in *. congruence. }
      inversion E''. lia.
  - intros Hn. unfold cells.
    destruct (Nat.ltb_spec n 2); [reflexivity|]. unfold n in *. lia.
Qed.

Lemma find_correlations_upper_triangle_sales :
  well_formed Samples.sales
  /\ exists pairs cells,
       find_correlations Samples.sales (1 / 2) = ret pairs
       /\ pairs = map (pair_at (correlation_matrix Samples.sales)) cells
       /\ map names_of pairs = map (labels_at Samples.sales) cells
       /\ StronglySorted row_major cells
       /\ Forall (fun ij => (fst ij < snd ij
                             < length (numeric_columns Samples.sales))%nat)
                 cells
       /\ (forall i j,
           (i < j < length (numeric_columns Samples.sales))%nat ->
           abs_ge (iloc (correlation_matrix Samples.sales) i j) (1 / 2) = true ->
           In (i, j) cells)
       /\ Forall (fun p => exists r, correlation p = RVal r
                                     /\ (Rabs r >= 1 / 2)%R) pairs
       /\ Forall (fun p =>
                    (direction p = "positive"
                     <-> exists r, correlation p = RVal r /\ (r > 0)%R)
                    /\ (direction p = "positive" \/ direction p = "negative"))
                 pairs
       /\ NoDup (map names_of pairs)
       /\ (forall a b, In (a, b) (map names_of pairs) ->
           a <> b /\ ~ In (b, a) (map names_of pairs))
       /\ ((length (numeric_columns Samples.sales) < 2)%nat -> pairs = []).
Proof.
  split.
  - apply well_formedb_sound. reflexivity.
  - apply (@find_correlations_upper_triangle Samples.sales (1 / 2)).
    apply well_formedb_sound. reflexivity.
Defined.

Lemma get_correlation_matrix_run (df : DataFrame) :
  get_correlation_matrix df
  = ret (if (2 <=? length (numeric_columns df))%nat
         then Some (correlation_matrix df) else None).
Proof.
  unfold get_correlation_matrix, shape1. simpl columns.
  fold (numeric_columns df).
  destruct (Nat.leb_spec 2 (length (numeric_columns df))) as [H|H].
  - destruct (Z.geb_spec (Z.of_nat (length (numeric_columns df))) 2); [|lia].
    rewrite corr_numeric, bind_ret. reflexivity.
  - destruct (Z.geb_spec (Z.of_nat (length (numeric_columns df))) 2);
      [lia|reflexivity].
Qed.

Lemma iloc_symmetric (df : DataFrame) (i j : nat) :
  iloc (correlation_matrix df) i j = iloc (correlation_matrix df) j i.
Proof.
  rewrite !iloc_correlation_matrix, andb_comm.
  destruct (_ && _); [|reflexivity].
  apply PearsonFacts.r_symmetric.
Qed.

Lemma iloc_diagonal (df : DataFrame) (i : nat) (c : column) :
  nth_error (numeric_columns df) i = Some c ->
  iloc (correlation_matrix df) i i
  = if constant (numbers c) then RNaN else RVal 1.
Proof.
  intros Hc. rewrite iloc_correlation_matrix.
  assert (i < length (numeric_columns df))%nat as Hi
    by (apply nth_error_Some; congruence).
  rewrite length_map.
  destruct (Nat.ltb_spec i (length (numeric_columns df))); [|lia]. simpl.
  rewrite PearsonFacts.r_diag.
  rewrite (nth_map_default floats _ c [] Hi).
  rewrite (nth_error_nth _ _ c Hc).
  assert (is_number c = true) as Hnum.
  { apply nth_error_In in Hc. apply filter_In in Hc. tauto. }
  unfold floats, numbers, is_number in *.
  destruct (data c); try discriminate. reflexivity.
Qed.

(** C2 fails as stated: the first numeric column of this table is
    constant, and its diagonal entry in the matrix that
    [get_correlation_matrix] returns is NaN, not 1. *)
Lemma get_correlation_matrix_constant_column :
  exists m,
    get_correlation_matrix Samples.flat_and_rising = ret (Some m)
    /\ (2 <= length (numeric_columns Samples.flat_and_rising))%nat
    /\ iloc m 0 0 = RNaN
    /\ iloc m 0 0 <> RVal 1.
Proof.
  exists (correlation_matrix Samples.flat_and_rising).
  assert (iloc (correlation_matrix Samples.flat_and_rising) 0 0 = RNaN) as E.
  { rewrite (@iloc_diagonal Samples.flat_and_rising 0
               (Column "flat" (Numeric [Some 1; Some 1]%Q)) eq_refl).
    reflexivity. }
  split; [|split; [|split]].
  - rewrite get_correlation_matrix_run. reflexivity.
  - simpl. lia.
  - exact E.
  - rewrite E. discriminate.
Qed.

(** C2, amended: [get_correlation_matrix] returns [None] exactly when the
    table has fewer than two numeric columns; otherwise it returns a matrix
    with one row and one column for each numeric column, in table order,
    which is symmetric, and whose diagonal entry is 1 for every column
    whose non-null values are not all equal, and NaN for a column whose
    non-null values are all equal or that has none. *)
Theorem get_correlation_matrix_shape (df : DataFrame) :
  exists result,
    get_correlation_matrix df = ret result
    /\ match result with
       | None => (length (numeric_columns df) < 2)%nat
       | Some m =>
           (2 <= length (numeric_columns df))%nat
           /\ cm_columns m = map label (numeric_columns df)
           /\ length (cm_rows m) = length (numeric_columns df)
           /\ Forall (fun row => length row = length (numeric_columns df))
                     (cm_rows m)
           /\ (forall i j, iloc m i j = iloc m j i)
           /\ (forall i c, nth_error (numeric_columns df) i = Some c ->
               iloc m i i = if constant (numbers c)
                            then RNaN else RVal 1)
       end.
Proof.
  eexists. split; [apply get_correlation_matrix_run|].
  destruct (Nat.leb_spec 2 (length (numeric_columns df))) as [H|H];
    [|exact H].
  split; [exact H|]. split; [reflexivity|]. split; [|split; [|split]].
  - simpl. rewrite !length_map. reflexivity.
  - simpl. apply Forall_forall. intros row Hrow.
    apply in_map_iff in Hrow as (xs & <- & _). rewrite !length_map.
    reflexivity.
  - apply iloc_symmetric.
  - apply iloc_diagonal.
Qed.

(* ------------------------------------------------------------------ *)
(** ** Categorical summaries *)

Lemma insert_desc_in (e x : value * Z) (sorted : freq_table) :
  In x (insert_desc e sorted) -> x = e \/ In x sorted.
Proof.
  induction sorted as [|e' sorted IH]; simpl.
  - intros [<-|[]]. left. reflexivity.
  - destruct (snd e' <=? snd e); simpl.
    + intros [<-|H]; auto.
    + intros [<-|H]; auto. apply IH in H. tauto.
Qed.

Lemma insert_desc_sorted (e : value * Z) (sorted : freq_table) :
  StronglySorted descending sorted ->
  StronglySorted descending (insert_desc e sorted).
Proof.
  induction 1 as [|e' sorted S IH F]; simpl.
  - repeat constructor.
  - destruct (Z.leb_spec (snd e') (snd e)) as [Hle|Hgt].
    + constructor; [constructor; assumption|].
      constructor; [exact Hle|].
      eapply Forall_impl; [|exact F]. unfold descending. intros; lia.
    + constructor; [exact IH|].
      apply Forall_forall. intros x Hx. apply insert_desc_in in Hx as [->|Hx].
      * unfold descending. lia.
      * rewrite Forall_forall in F. apply F. exact Hx.
Qed.

Lemma value_counts_sorted (s : series) :
  StronglySorted descending (value_counts s).
Proof.
  unfold value_counts. induction (map _ _) as [|e l IH]; simpl.
  - constructor.
  - apply insert_desc_sorted. exact IH.
Qed.

Lemma getitem_label (cols : list column) (key : string) :
  In key (map label cols) -> getitem cols key = ret (series_at cols key).
Proof.
  induction cols as [|c cols IH]; simpl; [contradiction|].
  intros [E|H].
  - rewrite E, String.eqb_refl. reflexivity.
  - destruct (String.eqb (label c) key); [reflexivity|]. apply IH. exact H.
Qed.

Lemma slice_to_incl {A} (xs : list A) (n : Z) : incl (slice_to xs n) xs.
Proof. unfold slice_to. destruct (n <? 0); apply firstn_incl. Qed.

Lemma analyze_categorical_columns_run (df : DataFrame) (max_columns : Z) :
  analyze_categorical_columns df max_columns
  = ret (map (summary_of df)
             (slice_to (map label (filter is_object (columns df)))
                       max_columns)).
Proof.
  unfold analyze_categorical_columns. simpl columns.
  rewrite (mapM_ok _ (fun _ => []) (summary_of df)).
  - rewrite flat_map_nil. reflexivity.
  - intros col Hcol. apply slice_to_incl in Hcol.
    assert (In col (map label (columns df))) as Hin.
    { apply in_map_iff in Hcol as (c & <- & Hc).
      apply filter_In in Hc as [Hc _]. apply in_map. exact Hc. }
    rewrite (getitem_label _ _ Hin), !bind_ret. reflexivity.
Qed.

Lemma show_categories_no_caption (categories : list categorical_summary) :
  Forall (fun cat => cs_top_values cat <> None) categories ->
  forall text, ~ In (Caption text) (show_categories categories).
Proof.
  intros H text Hin. unfold show_categories in Hin.
  apply in_flat_map in Hin as (cat & Hcat & Hin).
  rewrite Forall_forall in H. specialize (H cat Hcat).
  destruct Hin as [Hin|Hin]; [discriminate|].
  destruct (cs_top_values cat); [|congruence].
  destruct Hin as [Hin|[]]. discriminate.
Qed.

(** C9: every summary returned by [analyze_categorical_columns] has a
    frequency table that is not [None], holds at most 10 entries and is in
    descending order of count; so the page never shows the caption
    "Too many unique values to visualize clearly." for it. *)
Theorem analyze_categorical_columns_top_values (df : DataFrame)
    (max_columns : Z) :
  exists summaries,
    analyze_categorical_columns df max_columns = ret summaries
    /\ Forall (fun cat => exists top,
                 cs_top_values cat = Some top
                 /\ (length top <= 10)%nat
                 /\ StronglySorted descending top) summaries
    /\ ~ In (Caption too_many) (show_categories summaries).
Proof.
  eexists. split; [apply analyze_categorical_columns_run|].
  assert (Forall (fun cat => exists top,
                    cs_top_values cat = Some top
                    /\ (length top <= 10)%nat
                    /\ StronglySorted descending top)
                 (map (summary_of df)
                      (slice_to (map label (filter is_object (columns df)))
                                max_columns))) as H.
  { apply Forall_forall. intros cat Hcat.
    apply in_map_iff in Hcat as (col & <- & _).
    eexists. split; [reflexivity|]. split.
    - apply firstn_le_length.
    - apply StronglySorted_firstn, value_counts_sorted. }
  split; [exact H|].
  apply show_categories_no_caption.
  eapply Forall_impl; [|exact H].
  intros cat (top & E & _). congruence.
Qed.

Example sales_categories :
  analyze_categorical_columns Samples.sales 2
  = ret [CategoricalSummary "region" 2
           (Some [(Text "north", 2); (Text "south", 1)])].
Proof. reflexivity. Qed.

(* ------------------------------------------------------------------ *)
(** ** Date range *)

Section DateRange.

Variable to_datetime : series -> list (option Z).
Variable date_str : Z -> string.


Lemma date_loop_run (df : DataFrame) (cs : list column) :
  well_formed df -> incl cs (columns df) ->
  date_loop to_datetime date_str df (map label cs)
  = ret (match find (date_likeb to_datetime) cs with
         | Some c => format_range date_str (to_datetime (data c))
         | None => no_date
         end).
Proof.
  intros WF. induction cs as [|c cs IH]; intros Hcs; simpl; [reflexivity|].
  assert (In c (columns df)) as Hin by (apply Hcs; left; reflexivity).
  assert (incl cs (columns df)) as Hcs'
    by (intros c' Hc'; apply Hcs; right; exact Hc').
  rewrite (getitem_in _ _ (wf_labels WF) Hin), bind_ret.
  unfold date_likeb at 1.
  destruct (dtype_is_object (data c)); cbn [andb].
  - rewrite bind_ret.
    destruct (gt (notna_mean (to_datetime (data c))) (7 # 10));
      [reflexivity|].
    apply IH. exact Hcs'.
  - apply IH. exact Hcs'.
Qed.








End DateRange.

Example orders_date_range :
  identify_date_range DateSamples.to_datetime DateSamples.date_str
                      DateSamples.orders
  = ret "2024-01-15 to 2024-03-01".
Proof. reflexivity. Qed.

Example sales_date_range :
  identify_date_range DateSamples.to_datetime DateSamples.date_str
                      Samples.sales
  = ret "No date column detected".
Proof. reflexivity. Qed.



(* ------------------------------------------------------------------ *)
(** ** PDF report *)

Lemma drawn_text_app (d1 d2 : list canvas_op) :
  drawn_text (d1 ++ d2) = drawn_text d1 ++ drawn_text d2.
Proof. unfold drawn_text. apply flat_map_app. Qed.

Lemma drawn_images_app (d1 d2 : list canvas_op) :
  drawn_images (d1 ++ d2) = drawn_images d1 ++ drawn_images d2.
Proof. unfold drawn_images. apply flat_map_app. Qed.

Section ReportFacts.

Variable wrap : string -> Z -> list string.

Lemma insight_lines (lines : list string) :
  forall st,
  let st' := fold_left
               (fun st line =>
                  down 14 (drawString line (emit (SetFont "Helvetica" 11) st)))
               lines st in
  drawn_text (canvas st') = drawn_text (canvas st) ++ lines
  /\ drawn_images (canvas st') = drawn_images (canvas st).
Proof.
  induction lines as [|line lines IH]; intros st; simpl.
  - rewrite app_nil_r. auto.
  - destruct (IH (down 14 (drawString line
                              (emit (SetFont "Helvetica" 11) st))))
      as [Ht Hi].
    simpl in Ht, Hi. rewrite Ht, Hi. simpl.
    rewrite !drawn_text_app, !drawn_images_app. simpl.
    rewrite !app_nil_r, <- app_assoc. auto.
Qed.

Lemma numeric_block_drawn (st : pdf_state) (stat : numeric_stats) :
  drawn_text (canvas (numeric_block wrap st stat))
  = drawn_text (canvas st) ++ block_text wrap stat
  /\ drawn_images (canvas (numeric_block wrap st stat))
     = drawn_images (canvas st) ++ [block_image stat].
Proof.
  unfold numeric_block.
  set (st0 := if negb (Qle_bool 250 (y st)) then new_page st else st).
  assert (drawn_text (canvas st0) = drawn_text (canvas st)
          /\ drawn_images (canvas st0) = drawn_images (canvas st))
    as [Ht0 Hi0].
  { unfold st0. destruct (negb _); [|auto]. simpl.
    rewrite !drawn_text_app, !drawn_images_app. simpl.
    rewrite !app_nil_r. auto. }
  set (st1 := down 15 (drawString (ns_column stat)
                         (emit (SetFont "Helvetica-Bold" 12) st0))).
  destruct (insight_lines (wrap (ns_insight stat) 90) st1) as [Ht Hi].
  simpl in Ht, Hi. simpl.
  rewrite drawn_text_app, drawn_images_app, Ht, Hi. simpl.
  rewrite !drawn_text_app, !drawn_images_app. simpl.
  rewrite !app_nil_r, Ht0, Hi0, <- !app_assoc. auto.
Qed.

Lemma numeric_blocks_drawn (numeric : list numeric_stats) :
  forall st,
  drawn_text (canvas (fold_left (numeric_block wrap) numeric st))
  = drawn_text (canvas st) ++ flat_map (block_text wrap) numeric
  /\ drawn_images (canvas (fold_left (numeric_block wrap) numeric st))
     = drawn_images (canvas st) ++ map block_image numeric.
Proof.
  induction numeric as [|stat numeric IH]; intros st; simpl.
  - rewrite !app_nil_r. auto.
  - destruct (IH (numeric_block wrap st stat)) as [Ht Hi].
    destruct (numeric_block_drawn st stat) as [Ht' Hi'].
    rewrite Ht, Hi, Ht', Hi', <- !app_assoc. auto.
Qed.

(** What a report shows, for any input: the title and overview lines,
    the heading of the numeric section, one block for each numeric record,
    and the heatmap section when there is a matrix. *)
Lemma generate_pdf_report_drawn (dataset_name : string) (ov : overview)
    (numeric : list numeric_stats) (corr_matrix : option corr_matrix)
    (categories : list categorical_summary) :
  let doc := generate_pdf_report wrap dataset_name ov numeric corr_matrix
                                 categories in
  drawn_text doc
  = title_lines dataset_name ++ overview_lines ov ++ ["Numeric Insights"]
    ++ flat_map (block_text wrap) numeric
    ++ match corr_matrix with
       | Some _ => ["Correlation Heatmap"]
       | None => []
       end
  /\ drawn_images doc
     = map block_image numeric
       ++ match corr_matrix with
          | Some m => [Heatmap m]
          | None => []
          end.
Proof.
  unfold generate_pdf_report.
  match goal with
  | |- context [fold_left (numeric_block wrap) numeric ?s] => set (st := s)
  end.
  destruct (numeric_blocks_drawn numeric st) as [Ht Hi].
  assert (drawn_text (canvas st)
          = title_lines dataset_name ++ overview_lines ov
            ++ ["Numeric Insights"]) as Ht0 by reflexivity.
  assert (drawn_images (canvas st) = []) as Hi0 by reflexivity.
  rewrite Ht0 in Ht. rewrite Hi0 in Hi.
  destruct corr_matrix as [m|]; simpl heatmap_block; simpl canvas;
    rewrite ?drawn_text_app, ?drawn_images_app, Ht, Hi; simpl;
    rewrite ?app_nil_r, <- ?app_assoc; simpl; auto.
Qed.

(** C3, amended: with no numeric record and no matrix, the report is one
    page showing the title lines, the overview lines and the heading
    "Numeric Insights" of the numeric section, in that order; it shows
    nothing else: no numeric block, no heatmap section, no picture. *)
Theorem generate_pdf_report_without_numbers (dataset_name : string)
    (ov : overview) (categories : list categorical_summary) :
  let doc := generate_pdf_report wrap dataset_name ov [] None categories in
  drawn_text doc
  = ["Statscope Report"; ("Dataset: " ++ dataset_name)%string;
     ("Rows: " ++ str_of_Z (total_rows ov))%string;
     ("Columns: " ++ str_of_Z (total_columns ov))%string;
     ("Date range: " ++ date_range ov)%string;
     "Numeric Insights"]
  /\ drawn_images doc = []
  /\ pages doc = 1%nat.
Proof.
  destruct (generate_pdf_report_drawn dataset_name ov [] None categories)
    as [Ht Hi].
  split; [exact Ht|]. split; [exact Hi|]. reflexivity.
Qed.

End ReportFacts.

(** C3 fails as stated: the report of a table without numeric column and
    without matrix also shows the heading "Numeric Insights", which belongs
    to neither the title nor the overview. *)
Lemma generate_pdf_report_shows_numeric_heading :
  let ov := Overview 4 1 "No date column detected" in
  let doc := generate_pdf_report (fun text _ => [text]) "notes.csv" ov
                                 [] None [] in
  In "Numeric Insights" (drawn_text doc)
  /\ ~ In "Numeric Insights" (title_lines "notes.csv" ++ overview_lines ov)
  /\ ~ only_title_and_overview "notes.csv" ov doc.
Proof.
  split; [|split].
  - simpl. tauto.
  - simpl. intros H. repeat (destruct H as [H|H]; [discriminate|]).
    exact H.
  - intros [H _]. discriminate.
Qed.

(* ------------------------------------------------------------------ *)
(** ** Scenarios of the specification *)

(** Scenario A: a numeric column named [user_id] is left out. *)
Example scenario_user_id :
  outcome (analyze_numeric_columns Samples.fixed Samples.accounts 3 true)
  = Ok [stats_of Samples.fixed true
          (Column "balance" (Numeric [Some 7; Some 7; Some 9; Some 7]%Q))].
Proof. reflexivity. Qed.

(** A column of measurements that are all different is taken for an
    identifier too: 4 distinct values in 4 rows is above 0.95. *)
Example all_distinct_is_left_out :
  outcome (analyze_numeric_columns Samples.fixed Samples.heights 3 true)
  = Ok [].
Proof. reflexivity. Qed.

(** Scenario D: with one numeric column there is no matrix, and the
    numeric analysis still returns its record. *)
Example scenario_one_numeric_column :
  get_correlation_matrix Samples.one_measure = ret None
  /\ outcome (analyze_numeric_columns Samples.fixed Samples.one_measure 3 true)
     = Ok [stats_of Samples.fixed true
             (Column "price" (Numeric [Some 5; Some 5]%Q))].
Proof. split; reflexivity. Qed.

Example median_of_four : Stats.median [3; 1; 2; 1]%Q = Fin ((1 + 2) / 2).
Proof. reflexivity. Qed.

(** Scenario B: two columns that move exactly against each other give one
    pair, with coefficient -1 and direction "negative". *)
Example scenario_anti_correlated :
  find_correlations Samples.up_and_down (1 / 2)
  = ret [CorrelationPair "up" "down" (RVal (-1)) "negative"].
Proof.
  rewrite find_correlations_run.
  assert (iloc (correlation_matrix Samples.up_and_down) 0 1 = RVal (-1)) as E.
  { rewrite iloc_correlation_matrix. simpl.
    unfold Pearson.r, Pearson.codev, Pearson.mean, Pearson.rsum,
      Pearson.xval, Pearson.yval. simpl. unfold Q2R. simpl.
    match goal with
    | |- context [sqrt ?x] =>
        replace x with ((1 / 2) * (1 / 2))%R by field
    end.
    rewrite sqrt_square by lra.
    destruct (Req_EM_T (1 / 2) 0) as [H|_]; [lra|].
    f_equal. unfold Pearson.clip.
    match goal with
    | |- context [Rgt_dec ?x 1] => replace x with (-1)%R by field
    end.
    destruct (Rgt_dec (-1) 1); [lra|].
    destruct (Rlt_dec (-1) (-1)); [lra|]. reflexivity. }
  unfold ret. f_equal. f_equal.
  change (if (length (numeric_columns Samples.up_and_down) <? 2)%nat then _ else _)
    with (map (pair_at (correlation_matrix Samples.up_and_down))
              (filter (meets (correlation_matrix Samples.up_and_down) (1 / 2))
                      [(0, 1)%nat])).
  unfold filter, meets, fst, snd. rewrite E.
  assert (Rabs (-1) = 1)%R as Ha
    by (unfold Rabs; destruct (Rcase_abs (-1)); lra).
  unfold abs_ge. rewrite Ha.
  destruct (Rge_dec 1 (1 / 2)) as [_|H]; [|lra].
  unfold map, pair_at. rewrite E. unfold positive.
  destruct (Rgt_dec (-1) 0); [lra|]. reflexivity.
Qed.

(* ================================================================== *)
(** * Further properties of the code *)

(** ** Numeric analysis: order, cap and records *)

Lemma until_cap_firstn {A} (max_columns : Z) (kept : list A) :
  forall have,
  Z.of_nat have < max_columns ->
  until_cap max_columns have kept
  = firstn (Z.to_nat max_columns - have) kept.
Proof.
  induction kept as [|x kept IH]; intros have H; cbn [until_cap].
  - rewrite firstn_nil. reflexivity.
  - replace (Z.to_nat max_columns - have)%nat
      with (S (Z.to_nat max_columns - S have)) by lia.
    cbn [firstn]. f_equal.
    destruct (Z.geb_spec (Z.of_nat (S have)) max_columns) as [Hge|Hlt].
    + replace (Z.to_nat max_columns - S have)%nat with 0%nat by lia.
      reflexivity.
    + apply IH. exact Hlt.
Qed.

Section NumericRecordsFacts.

Variable fixed : nat -> pyfloat -> string.

(** With a maximum of at least 1, the records are those of the first
    [max_columns] numeric columns that pass the three checks, in table
    order; so there are at most [max_columns] of them. *)
Theorem analyze_numeric_columns_first_eligible (df : DataFrame)
    (max_columns : Z) (beginner : bool) :
  well_formed df -> 1 <= max_columns ->
  exists records,
    outcome (analyze_numeric_columns fixed df max_columns beginner)
    = Ok records
    /\ records
       = map (stats_of fixed beginner)
             (firstn (Z.to_nat max_columns)
                     (filter (eligible df) (numeric_columns df)))
    /\ Z.of_nat (length records) <= max_columns.
Proof.
  intros WF Hmax. eexists. split; [|split].
  - apply analyze_numeric_columns_outcome. exact WF.
  - rewrite until_cap_firstn by (simpl; lia).
    rewrite Nat.sub_0_r. reflexivity.
  - rewrite length_map.
    pose proof (@until_cap_length _ max_columns
                  (filter (eligible df) (filter is_number (columns df))) 0%nat)
      as H.
    simpl in H. apply H. lia.
Qed.

End NumericRecordsFacts.

Lemma analyze_numeric_columns_first_eligible_sales :
  (well_formed Samples.sales /\ 1 <= 1)
  /\ exists records,
       outcome (analyze_numeric_columns Samples.fixed Samples.sales 1 true)
       = Ok records
       /\ records
          = map (stats_of Samples.fixed true)
                (firstn (Z.to_nat 1)
                        (filter (eligible Samples.sales)
                                (numeric_columns Samples.sales)))
       /\ Z.of_nat (length records) <= 1.
Proof.
  split.
  - split; [apply well_formedb_sound; reflexivity|lia].
  - apply (@analyze_numeric_columns_first_eligible
             Samples.fixed Samples.sales 1 true).
    + apply well_formedb_sound. reflexivity.
    + lia.
Defined.

(** ** The statistics of a column *)

Module StatsFacts.

Local Open Scope Q_scope.

Lemma fold_least (xs : list Q) :
  forall x,
  least (x :: xs)
        (fold_left (fun m y => if Qle_bool y m then y else m) xs x).
Proof.
  induction xs as [|y xs IH]; intros x; simpl.
  - split; [left; reflexivity|]. intros z [<-|[]]. apply Qle_refl.
  - destruct (IH (if Qle_bool y x then y else x)) as [Hin Hle].
    assert ((if Qle_bool y x then y else x) <= x
            /\ (if Qle_bool y x then y else x) <= y) as [Hx Hy].
    { destruct (Qle_bool y x) eqn:E.
      - apply Qle_bool_iff in E. split; [exact E|apply Qle_refl].
      - split; [apply Qle_refl|]. apply Qlt_le_weak, Qnot_le_lt.
        intros H. apply Qle_bool_iff in H. congruence. }
    split.
    + destruct Hin as [E|Hin]; [|right; right; exact Hin].
      rewrite <- E. destruct (Qle_bool y x); simpl; auto.
    + intros z Hz.
      assert (fold_left (fun m y0 => if Qle_bool y0 m then y0 else m) xs
                        (if Qle_bool y x then y else x)
              <= (if Qle_bool y x then y else x)) as Hm
        by (apply Hle; left; reflexivity).
      destruct Hz as [<-|[<-|Hz]].
      * eapply Qle_trans; eauto.
      * eapply Qle_trans; eauto.
      * apply Hle. right. exact Hz.
Qed.

Lemma fold_greatest (xs : list Q) :
  forall x,
  greatest (x :: xs)
           (fold_left (fun m y => if Qle_bool m y then y else m) xs x).
Proof.
  induction xs as [|y xs IH]; intros x; simpl.
  - split; [left; reflexivity|]. intros z [<-|[]]. apply Qle_refl.
  - destruct (IH (if Qle_bool x y then y else x)) as [Hin Hle].
    assert (x <= (if Qle_bool x y then y else x)
            /\ y <= (if Qle_bool x y then y else x)) as [Hx Hy].
    { destruct (Qle_bool x y) eqn:E.
      - apply Qle_bool_iff in E. split; [exact E|apply Qle_refl].
      - split; [apply Qle_refl|]. apply Qlt_le_weak, Qnot_le_lt.
        intros H. apply Qle_bool_iff in H. congruence. }
    split.
    + destruct Hin as [E|Hin]; [|right; right; exact Hin].
      rewrite <- E. destruct (Qle_bool x y); simpl; auto.
    + intros z Hz.
      assert ((if Qle_bool x y then y else x)
              <= fold_left (fun m y0 => if Qle_bool m y0 then y0 else m) xs
                           (if Qle_bool x y then y else x)) as Hm
        by (apply Hle; left; reflexivity).
      destruct Hz as [<-|[<-|Hz]].
      * eapply Qle_trans; eauto.
      * eapply Qle_trans; eauto.
      * apply Hle. right. exact Hz.
Qed.

End StatsFacts.

Lemma stats_of_summarises (fixed : nat -> pyfloat -> string)
    (beginner : bool) (c : column) :
  is_number c = true -> numbers c <> [] ->
  summarises (stats_of fixed beginner c) (numbers c).
Proof.
  intros Hnum Hne. unfold summarises. split; [exact Hne|]. split.
  - unfold stats_of, numbers, is_number in *. simpl.
    destruct (data c); try discriminate. reflexivity.
  - destruct (numbers c) as [|x xs] eqn:E; [congruence|].
    pose proof (StatsFacts.fold_least xs x) as Hlo.
    pose proof (StatsFacts.fold_greatest xs x) as Hhi.
    set (lo := fold_left (fun m y => if Qle_bool y m then y else m) xs x) in *.
    set (hi := fold_left (fun m y => if Qle_bool m y then y else m) xs x) in *.
    exists lo, hi.
    unfold stats_of. rewrite E. simpl ns_min. simpl ns_max.
    split; [reflexivity|]. split; [reflexivity|].
    split; [exact Hlo|exact Hhi].
Qed.

Lemma eligible_numbers (df : DataFrame) (c : column) :
  is_number c = true -> eligible df c = true -> numbers c <> [].
Proof.
  intros Hnum Hel Hnil. unfold eligible in Hel.
  apply andb_prop in Hel as [Hel _]. apply andb_prop in Hel as [Hel _].
  apply negb_true_iff in Hel.
  assert (empty_after_dropna c = true) as E; [|congruence].
  apply empty_after_dropna_spec.
  unfold numbers, is_number in *. destruct (data c); try discriminate.
  simpl. rewrite Hnil. reflexivity.
Qed.

(** Every record of the numeric analysis summarises at least one value:
    the values it keeps are the non-null cells of its column, in their
    order, and its minimum and maximum are two of them, the least and the
    greatest. *)
Theorem analyze_numeric_columns_records_summarise
    (fixed : nat -> pyfloat -> string) (df : DataFrame) (max_columns : Z)
    (beginner : bool) :
  well_formed df ->
  exists records,
    outcome (analyze_numeric_columns fixed df max_columns beginner)
    = Ok records
    /\ Forall (fun r => exists c,
                 In c (numeric_columns df) /\ ns_column r = label c
                 /\ summarises r (numbers c)) records.
Proof.
  intros WF. eexists. split.
  - apply analyze_numeric_columns_outcome. exact WF.
  - apply Forall_forall. intros r Hr.
    apply in_map_iff in Hr as (c & <- & Hc).
    apply until_cap_incl in Hc. apply filter_In in Hc as [Hc Hel].
    exists c. split; [exact Hc|]. split; [reflexivity|].
    apply filter_In in Hc as [_ Hnum].
    apply stats_of_summarises; [exact Hnum|].
    eapply eligible_numbers; eauto.
Qed.

Lemma analyze_numeric_columns_records_summarise_sales :
  well_formed Samples.sales
  /\ exists records,
       outcome (analyze_numeric_columns Samples.fixed Samples.sales 3 true)
       = Ok records
       /\ Forall (fun r => exists c,
                    In c (numeric_columns Samples.sales)
                    /\ ns_column r = label c
                    /\ summarises r (numbers c)) records.
Proof.
  split.
  - apply well_formedb_sound. reflexivity.
  - apply (@analyze_numeric_columns_records_summarise
             Samples.fixed Samples.sales 3 true).
    apply well_formedb_sound. reflexivity.
Defined.

(** ** The identifier test *)

Lemma prefix_cons (a : ascii) (s h : string) :
  String.prefix (String a s) h = true ->
  exists h', h = String a h' /\ String.prefix s h' = true.
Proof.
  destruct h as [|b h']; simpl; [discriminate|].
  destruct (ascii_dec a b) as [->|_]; [|discriminate].
  intros H. exists h'. auto.
Qed.

Lemma contains_uuid_id (h : string) :
  contains "uuid" h = true -> contains "id" h = true.
Proof.
  induction h as [|c h IH]; [discriminate|].
  cbn [contains]. intros H. apply orb_true_iff in H as [H|H].
  - apply prefix_cons in H as (h1 & E1 & H).
    apply prefix_cons in H as (h2 & -> & H).
    apply prefix_cons in H as (h3 & -> & H).
    apply prefix_cons in H as (h4 & -> & _).
    inversion E1; subst. clear. cbn. destruct h4; reflexivity.
  - rewrite (IH H). apply orb_true_r.
Qed.

Lemma name_test_id (name : string) :
  contains "id" (lower name) || contains "uuid" (lower name)
  = contains "id" (lower name).
Proof.
  destruct (contains "id" (lower name)) eqn:E; [reflexivity|].
  destruct (contains "uuid" (lower name)) eqn:U; [|reflexivity].
  apply contains_uuid_id in U. congruence.
Qed.

(** The answer of [is_likely_identifier] depends on the name only through
    whether its lower-cased form contains "id": the test for "uuid" never
    changes it, and neither does the case of the letters. *)
Theorem is_likely_identifier_name_test (s : series) (name1 name2 : string)
    (df : DataFrame) :
  contains "id" (lower name1) = contains "id" (lower name2) ->
  is_likely_identifier s name1 df = is_likely_identifier s name2 df.
Proof.
  intros H. unfold is_likely_identifier.
  rewrite !name_test_id, H. reflexivity.
Qed.

Lemma is_likely_identifier_name_test_sample :
  contains "id" (lower "Session_UUID") = contains "id" (lower "width")
  /\ is_likely_identifier (Numeric [Some 1; Some 1]%Q) "Session_UUID"
                          Samples.one_measure
     = is_likely_identifier (Numeric [Some 1; Some 1]%Q) "width"
                            Samples.one_measure.
Proof.
  split.
  - reflexivity.
  - apply (@is_likely_identifier_name_test
             (Numeric [Some 1; Some 1]%Q) "Session_UUID" "width"
             Samples.one_measure).
    reflexivity.
Defined.

(** [is_likely_identifier] raises exactly when it has to divide by the
    length of a table without rows, that is when the name does not settle
    the answer; it raises nothing but [ZeroDivisionError], and it divides at
    most once. *)
Theorem is_likely_identifier_zero_division (s : series) (name : string)
    (df : DataFrame) :
  (outcome (is_likely_identifier s name df) = Raise ZeroDivisionError
   <-> contains "id" (lower name) = false /\ len df = 0)
  /\ (forall e, outcome (is_likely_identifier s name df) = Raise e ->
      e = ZeroDivisionError)
  /\ divisions (is_likely_identifier s name df)
     = if contains "id" (lower name) then []
       else [Division (nunique s) (len df)].
Proof.
  unfold is_likely_identifier. rewrite name_test_id.
  destruct (contains "id" (lower name)).
  - split; [|split].
    + split; [discriminate|]. intros [H _]. discriminate.
    + intros e H. discriminate.
    + reflexivity.
  - unfold py_true_divide.
    destruct (Z.eqb_spec (len df) 0) as [E|E].
    + split; [|split].
      * split; auto.
      * intros e H. simpl in H. congruence.
      * reflexivity.
    + rewrite bind_ok. simpl. split; [|split].
      * split; [discriminate|]. intros [_ H]. contradiction.
      * intros e H. discriminate.
      * reflexivity.
Qed.

(** ** Data quality: counts, percentages and what the page shows *)

Lemma percentage_between (n rows : Z) :
  1 <= n <= rows ->
  (0 < inject_Z n / inject_Z rows * 100 <= 100)%Q.
Proof.
  intros H.
  assert (0 < inject_Z rows)%Q as Hrows
    by (change 0%Q with (inject_Z 0); rewrite <- Zlt_Qlt; lia).
  assert (0 < inject_Z n)%Q as Hn
    by (change 0%Q with (inject_Z 0); rewrite <- Zlt_Qlt; lia).
  assert (inject_Z n <= inject_Z rows)%Q as Hle
    by (rewrite <- Zle_Qle; lia).
  assert (0 < inject_Z n / inject_Z rows)%Q as H1
    by (apply Qlt_shift_div_l; [exact Hrows|Lqa.lra]).
  assert (inject_Z n / inject_Z rows <= 1)%Q as H2
    by (apply Qle_shift_div_r; [exact Hrows|Lqa.lra]).
  split; Lqa.lra.
Qed.

Lemma has_nulls_count (df : DataFrame) (c : column) :
  well_formed df -> In c (columns df) -> has_nulls c = true ->
  1 <= null_count c <= len df.
Proof.
  intros WF Hin Hn. unfold has_nulls in Hn.
  apply negb_true_iff, Z.eqb_neq in Hn.
  pose proof (null_count_bounds c) as B.
  rewrite (wf_size c WF Hin) in B. unfold len. lia.
Qed.

(** Every record of [check_missing_data] counts at least one null and at
    most as many as the table has rows, and its percentage is a number
    above 0 and at most 100 (never NaN or infinite); one division by the
    row count is made for each record. *)
Theorem check_missing_data_counts_and_percentages (df : DataFrame) :
  well_formed df ->
  exists records,
    outcome (check_missing_data df) = Ok records
    /\ Forall (fun r =>
                 1 <= mr_count r <= len df
                 /\ exists q, mr_percentage r = Fin q
                              /\ (0 < q <= 100)%Q) records
    /\ length (divisions (check_missing_data df)) = length records.
Proof.
  intros WF. rewrite (check_missing_data_run WF). eexists.
  split; [reflexivity|]. split.
  - apply Forall_forall. intros r Hr.
    apply in_map_iff in Hr as (c & <- & Hc).
    apply filter_In in Hc as [Hin Hn].
    pose proof (has_nulls_count c WF Hin Hn) as B.
    split; [exact B|]. eexists. split; [reflexivity|].
    apply percentage_between. exact B.
  - simpl. rewrite !length_map. reflexivity.
Qed.

Lemma check_missing_data_counts_and_percentages_sales :
  well_formed Samples.sales
  /\ exists records,
       outcome (check_missing_data Samples.sales) = Ok records
       /\ Forall (fun r =>
                    1 <= mr_count r <= len Samples.sales
                    /\ exists q, mr_percentage r = Fin q
                                 /\ (0 < q <= 100)%Q) records
       /\ length (divisions (check_missing_data Samples.sales))
          = length records.
Proof.
  split.
  - apply well_formedb_sound. reflexivity.
  - apply (@check_missing_data_counts_and_percentages Samples.sales).
    apply well_formedb_sound. reflexivity.
Defined.

Lemma filter_nil_iff {A} (p : A -> bool) (l : list A) :
  filter p l = [] <-> forall x, In x l -> p x = false.
Proof.
  split.
  - intros H x Hx. destruct (p x) eqn:E; [|reflexivity].
    assert (In x (filter p l)) as Hin by (apply filter_In; auto).
    rewrite H in Hin. contradiction.
  - apply filter_none.
Qed.

Section DataQualityPage.

Variable fixed : nat -> pyfloat -> string.

Lemma show_missing_success (missing : list missing_record) :
  In (Success "No missing data found.") (show_missing fixed missing)
  <-> missing = [].
Proof.
  destruct missing as [|r missing]; simpl.
  - split; auto.
  - split; [|discriminate]. intros [H|H]; [discriminate|].
    exfalso. destruct H as [H|H]; [discriminate|].
    apply in_map_iff in H as (x & E & _). discriminate.
Qed.

(** The data-quality section says "No missing data found." exactly when no
    column of the table holds a null; otherwise it shows the warning and one
    line for each column that has nulls, in table order. *)
Theorem data_quality_section_shows (df : DataFrame) :
  well_formed df ->
  exists shown,
    outcome (data_quality_section fixed df)
    = Ok (Subheader "2️⃣ Data Quality" :: shown)
    /\ (shown = [Success "No missing data found."]
        <-> forall c, In c (columns df) -> null_count c = 0)
    /\ ((exists c, In c (columns df) /\ null_count c <> 0) ->
        exists lines,
          shown = Warning "Missing values detected:" :: map Write lines
          /\ length lines = length (filter has_nulls (columns df))).
Proof.
  intros WF. unfold data_quality_section.
  rewrite (check_missing_data_run WF), bind_ok. simpl outcome.
  eexists. split; [reflexivity|].
  assert (filter has_nulls (columns df) = []
          <-> forall c, In c (columns df) -> null_count c = 0) as Hnil.
  { rewrite filter_nil_iff. unfold has_nulls.
    split; intros H c Hc; specialize (H c Hc).
    - apply negb_false_iff, Z.eqb_eq in H. exact H.
    - rewrite H. reflexivity. }
  split.
  - rewrite <- Hnil.
    destruct (filter has_nulls (columns df)) as [|c cs]; simpl.
    + tauto.
    + split; discriminate.
  - intros (c & Hc & Hn).
    destruct (filter has_nulls (columns df)) as [|c' cs] eqn:E.
    + exfalso. apply Hn. apply Hnil; auto.
    + exists (map (missing_line fixed)
                  (map (missing_record_of df) (c' :: cs))).
      split.
      * rewrite map_map. reflexivity.
      * rewrite !length_map. reflexivity.
Qed.

End DataQualityPage.

Lemma data_quality_section_shows_sales :
  well_formed Samples.sales
  /\ exists shown,
       outcome (data_quality_section Samples.fixed Samples.sales)
       = Ok (Subheader "2️⃣ Data Quality" :: shown)
       /\ (shown = [Success "No missing data found."]
           <-> forall c, In c (columns Samples.sales) -> null_count c = 0)
       /\ ((exists c, In c (columns Samples.sales) /\ null_count c <> 0) ->
           exists lines,
             shown = Warning "Missing values detected:" :: map Write lines
             /\ length lines
                = length (filter has_nulls (columns Samples.sales))).
Proof.
  split.
  - apply well_formedb_sound. reflexivity.
  - apply (@data_quality_section_shows Samples.fixed Samples.sales).
    apply well_formedb_sound. reflexivity.
Defined.

Example data_quality_sales :
  outcome (data_quality_section Samples.fixed Samples.sales)
  = Ok [Subheader "2️⃣ Data Quality";
        Warning "Missing values detected:";
        Write "- **region**: 1 missing (25.0%)";
        Write "- **amount**: 1 missing (25.0%)"].
Proof. reflexivity. Qed.

(** ** Correlations: range of the coefficients, thresholds, the page *)

Lemma clip_between (v : R) : (-1 <= Pearson.clip v <= 1)%R.
Proof.
  unfold Pearson.clip.
  destruct (Rgt_dec v 1); [lra|]. destruct (Rlt_dec v (-1)); lra.
Qed.

Lemma r_between (obs : list (Q * Q)) :
  Pearson.r obs = RNaN
  \/ exists v, Pearson.r obs = RVal v /\ (-1 <= v <= 1)%R.
Proof.
  unfold Pearson.r. destruct obs as [|p obs]; [left; reflexivity|].
  destruct (Req_EM_T _ 0); [left; reflexivity|].
  right. eexists. split; [reflexivity|]. apply clip_between.
Qed.

Lemma iloc_between (df : DataFrame) (i j : nat) :
  iloc (correlation_matrix df) i j = RNaN
  \/ exists v, iloc (correlation_matrix df) i j = RVal v
               /\ (-1 <= v <= 1)%R.
Proof.
  rewrite iloc_correlation_matrix.
  destruct (_ && _); [apply r_between|left; reflexivity].
Qed.

Lemma correlation_pair_at (m : corr_matrix) (ij : nat * nat) :
  correlation (pair_at m ij) = iloc m (fst ij) (snd ij).
Proof. destruct ij. reflexivity. Qed.

(** Every coefficient that [find_correlations] reports lies between -1
    and 1, so a threshold above 1 leaves nothing: the result is empty
    whatever the table. *)
Theorem find_correlations_coefficients_bounded (df : DataFrame)
    (threshold : R) :
  exists pairs,
    find_correlations df threshold = ret pairs
    /\ Forall (fun p => exists v, correlation p = RVal v
                                  /\ (-1 <= v <= 1)%R) pairs
    /\ ((1 < threshold)%R -> pairs = []).
Proof.
  eexists. split; [apply find_correlations_run|].
  destruct (length (numeric_columns df) <? 2)%nat; [split; auto|].
  split.
  - apply Forall_forall. intros p Hp.
    apply in_map_iff in Hp as (ij & <- & Hij).
    apply filter_In in Hij as [_ Hm]. unfold meets in Hm.
    rewrite correlation_pair_at.
    destruct (iloc_between df (fst ij) (snd ij)) as [E|H]; [|exact H].
    rewrite E in Hm. discriminate.
  - intros Ht. rewrite filter_none; [reflexivity|].
    intros ij _. unfold meets.
    destruct (iloc_between df (fst ij) (snd ij)) as [E|(v & E & Hv)];
      rewrite E; [reflexivity|].
    simpl. destruct (Rge_dec (Rabs v) threshold) as [H|_]; [|reflexivity].
    exfalso. assert (Rabs v <= 1)%R by (apply Rabs_le; lra). lra.
Qed.

Lemma filter_filter_implied {A} (p q : A -> bool) (l : list A) :
  (forall x, q x = true -> p x = true) ->
  filter q (filter p l) = filter q l.
Proof.
  intros H. induction l as [|x l IH]; simpl; [reflexivity|].
  destruct (p x) eqn:P; simpl.
  - rewrite IH. reflexivity.
  - destruct (q x) eqn:Qx; [|exact IH].
    apply H in Qx. congruence.
Qed.

Lemma abs_ge_weaken (c : rfloat) (t1 t2 : R) :
  (t1 <= t2)%R -> abs_ge c t2 = true -> abs_ge c t1 = true.
Proof.
  intros Ht. destruct c as [|v]; simpl; [auto|].
  destruct (Rge_dec (Rabs v) t2) as [H2|]; [|discriminate].
  destruct (Rge_dec (Rabs v) t1) as [|H1]; [reflexivity|].
  exfalso. apply H1. lra.
Qed.

(** Raising the threshold only removes pairs: the result for the higher
    threshold is the result for the lower one without the pairs whose
    coefficient does not reach it, in the same order. *)
Theorem find_correlations_threshold_monotone (df : DataFrame)
    (low high : R) :
  (low <= high)%R ->
  exists weak strong,
    find_correlations df low = ret weak
    /\ find_correlations df high = ret strong
    /\ strong = filter (fun p => abs_ge (correlation p) high) weak.
Proof.
  intros Hle. eexists. eexists.
  split; [apply find_correlations_run|].
  split; [apply find_correlations_run|].
  destruct (length (numeric_columns df) <? 2)%nat; [reflexivity|].
  rewrite filter_map_comm. f_equal.
  rewrite (filter_ext (fun x => abs_ge (correlation
                                  (pair_at (correlation_matrix df) x)) high)
                      (meets (correlation_matrix df) high))
    by (intros ij; rewrite correlation_pair_at; reflexivity).
  rewrite filter_filter_implied; [reflexivity|].
  intros ij. unfold meets. apply abs_ge_weaken. exact Hle.
Qed.

Lemma find_correlations_threshold_monotone_sales :
  (1 / 2 <= 9 / 10)%R
  /\ exists weak strong,
       find_correlations Samples.sales (1 / 2) = ret weak
       /\ find_correlations Samples.sales (9 / 10) = ret strong
       /\ strong = filter (fun p => abs_ge (correlation p) (9 / 10)) weak.
Proof.
  split.
  - lra.
  - apply (@find_correlations_threshold_monotone
             Samples.sales (1 / 2) (9 / 10)).
    lra.
Defined.

Section RelationshipsPage.

Variable fixed_r : nat -> rfloat -> string.

(** In the relationships section the heatmap goes with the list of pairs:
    when [find_correlations] finds none, the section shows only
    "No strong relationships detected."; when it finds some, the matrix is
    always there, so the section shows the caption, the help text in
    beginner mode, one line for each pair and then the heatmap. *)
Theorem relationships_section_shows (df : DataFrame)
    (explain_like_new : bool) :
  exists pairs shown,
    find_correlations df default_threshold = ret pairs
    /\ outcome (relationships_section fixed_r df explain_like_new)
       = Ok (Subheader "4️⃣ Relationships between numbers" :: shown)
    /\ shown
       = match pairs with
         | [] => [Info "No strong relationships detected."]
         | _ =>
             Element (Caption "Correlation shows association — not causation.")
             :: (if explain_like_new then [Info reading_help] else [])
             ++ map (show_pair fixed_r) pairs
             ++ [Element (Pyplot (Heatmap (correlation_matrix df)))]
         end.
Proof.
  pose proof (find_correlations_run df default_threshold) as Hrun.
  set (pairs := if (length (numeric_columns df) <? 2)%nat then []
                else map (pair_at (correlation_matrix df))
                         (filter (meets (correlation_matrix df)
                                        default_threshold)
                                 (upper_triangle
                                    (length (numeric_columns df))))) in *.
  exists pairs. eexists. split; [exact Hrun|]. split; [|reflexivity].
  unfold relationships_section.
  rewrite Hrun, bind_ret, get_correlation_matrix_run.
  destruct pairs as [|p rest] eqn:E.
  - rewrite !bind_ret. reflexivity.
  - assert ((2 <=? length (numeric_columns df))%nat = true) as ->.
    { unfold pairs in E.
      destruct (Nat.ltb_spec (length (numeric_columns df)) 2);
        [discriminate|].
      apply Nat.leb_le. assumption. }
    rewrite !bind_ret. reflexivity.
Qed.

End RelationshipsPage.

(** ** Categorical summaries: how many, and what they hold *)

Lemma summaries_columns (df : DataFrame) (labels : list string) :
  map cs_column (map (summary_of df) labels) = labels.
Proof.
  rewrite map_map. simpl. apply map_id.
Qed.

(** With a maximum that is not negative, the summaries are those of the
    first [max_columns] text columns in table order, so there are at most
    [max_columns] of them (none for 0). *)
Theorem analyze_categorical_columns_first_columns (df : DataFrame)
    (max_columns : Z) :
  0 <= max_columns ->
  exists summaries,
    analyze_categorical_columns df max_columns = ret summaries
    /\ map cs_column summaries
       = firstn (Z.to_nat max_columns)
                (map label (filter is_object (columns df)))
    /\ Z.of_nat (length summaries) <= max_columns.
Proof.
  intros Hmax. eexists. split; [apply analyze_categorical_columns_run|].
  unfold slice_to. destruct (Z.ltb_spec max_columns 0); [lia|].
  split.
  - apply summaries_columns.
  - rewrite length_map.
    pose proof (firstn_le_length (Z.to_nat max_columns)
                  (map label (filter is_object (columns df)))).
    lia.
Qed.

Lemma analyze_categorical_columns_first_columns_sales :
  0 <= 0
  /\ exists summaries,
       analyze_categorical_columns Samples.sales 0 = ret summaries
       /\ map cs_column summaries
          = firstn (Z.to_nat 0)
                   (map label (filter is_object (columns Samples.sales)))
       /\ Z.of_nat (length summaries) <= 0.
Proof.
  split.
  - lia.
  - apply (@analyze_categorical_columns_first_columns Samples.sales 0). lia.
Defined.



Example negative_maximum_orders :
  exists summaries,
    analyze_categorical_columns DateSamples.orders (-1) = ret summaries
    /\ map cs_column summaries = ["note"; "ordered"].
Proof. eexists. split; reflexivity. Qed.

Lemma insert_desc_length (e : value * Z) (sorted : freq_table) :
  length (insert_desc e sorted) = S (length sorted).
Proof.
  induction sorted as [|e' sorted IH]; simpl; [reflexivity|].
  destruct (snd e' <=? snd e); simpl; [reflexivity|].
  rewrite IH. reflexivity.
Qed.

Lemma sorted_desc_length (l : freq_table) :
  length (fold_right insert_desc [] l) = length l.
Proof.
  induction l as [|e l IH]; simpl; [reflexivity|].
  rewrite insert_desc_length, IH. reflexivity.
Qed.

Lemma sorted_desc_in (l : freq_table) (e : value * Z) :
  In e (fold_right insert_desc [] l) -> In e l.
Proof.
  induction l as [|e' l IH]; simpl; [auto|].
  intros H. apply insert_desc_in in H as [->|H]; auto.
Qed.

Lemma unique_from {A} (eqb : A -> A -> bool) (xs : list A) :
  forall seen x,
  In x (fold_left (fun seen x => if existsb (eqb x) seen then seen
                                 else seen ++ [x]) xs seen) ->
  In x seen \/ In x xs.
Proof.
  induction xs as [|y xs IH]; intros seen x H; simpl in *; [auto|].
  apply IH in H as [H|H]; [|auto].
  destruct (existsb (eqb y) seen); [auto|].
  apply in_app_or in H as [H|[<-|[]]]; auto.
Qed.

Lemma unique_in {A} (eqb : A -> A -> bool) (xs : list A) (x : A) :
  In x (unique eqb xs) -> In x xs.
Proof.
  intros H. apply unique_from in H as [[]|H]. exact H.
Qed.

Lemma value_eqb_refl (x : value) : value_eqb x x = true.
Proof.
  destruct x as [q|s]; simpl.
  - apply Qeq_bool_iff. reflexivity.
  - apply String.eqb_refl.
Qed.

Lemma value_counts_length (s : series) :
  Z.of_nat (length (value_counts s)) = nunique s.
Proof.
  unfold value_counts, nunique.
  rewrite sorted_desc_length, length_map. reflexivity.
Qed.

Lemma value_counts_entries (s : series) (e : value * Z) :
  In e (value_counts s) ->
  In (fst e) (non_null s)
  /\ 1 <= snd e <= Z.of_nat (length (non_null s)).
Proof.
  unfold value_counts. intros H. apply sorted_desc_in in H.
  apply in_map_iff in H as (x & <- & Hx). apply unique_in in Hx.
  simpl. split; [exact Hx|]. split.
  - assert (In x (filter (value_eqb x) (non_null s))) as Hin
      by (apply filter_In; split; [exact Hx|apply value_eqb_refl]).
    destruct (filter (value_eqb x) (non_null s)); [contradiction|].
    simpl. lia.
  - apply inj_le. apply filter_length_le.
Qed.

(** In every summary the frequency table has as many entries as the
    column has distinct values, up to 10 ([min(10, unique_count)]); each
    entry is a value of the column, counted at least once and at most as
    often as the column has non-null cells. *)
Theorem analyze_categorical_columns_counts (df : DataFrame)
    (max_columns : Z) :
  exists summaries,
    analyze_categorical_columns df max_columns = ret summaries
    /\ Forall (fun cat => exists top,
                 cs_top_values cat = Some top
                 /\ Z.of_nat (length top) = Z.min 10 (cs_unique_count cat)
                 /\ Forall (fun e =>
                      In (fst e)
                         (non_null (series_at (columns df) (cs_column cat)))
                      /\ 1 <= snd e
                         <= Z.of_nat
                              (length (non_null (series_at (columns df)
                                                           (cs_column cat)))))
                      top) summaries.
Proof.
  eexists. split; [apply analyze_categorical_columns_run|].
  apply Forall_forall. intros cat Hcat.
  apply in_map_iff in Hcat as (col & <- & _).
  eexists. split; [reflexivity|].
  unfold summary_of. cbn [cs_unique_count cs_column]. split.
  - unfold head. rewrite length_firstn, Nat2Z.inj_min, value_counts_length.
    reflexivity.
  - apply Forall_forall. intros e He. apply firstn_incl in He.
    apply value_counts_entries. exact He.
Qed.

(** ** Overview *)

Lemma select_dtypes_wf (df : DataFrame) (include : column -> bool) :
  well_formed df -> well_formed (select_dtypes df include).
Proof.
  intros [ND Sz]. split; simpl.
  - apply kept_labels_NoDup. exact ND.
  - apply Forall_forall. intros c Hc. apply filter_In in Hc as [Hc _].
    rewrite Forall_forall in Sz. apply Sz. exact Hc.
Qed.

Lemma find_in_filter {A} (p q : A -> bool) (l : list A) :
  (forall x, p x = true -> q x = true) ->
  find p (filter q l) = find p l.
Proof.
  intros H. induction l as [|x l IH]; simpl; [reflexivity|].
  destruct (q x) eqn:Qx; simpl.
  - rewrite IH. reflexivity.
  - destruct (p x) eqn:Px; [|exact IH].
    apply H in Px. congruence.
Qed.

Section OverviewFacts.

Variable to_datetime : series -> list (option Z).
Variable date_str : Z -> string.

(** On a well-formed table [get_dataset_overview] raises nothing; it
    reports the number of rows and of columns of the table, and a date range
    that only the text columns decide: it is what [identify_date_range]
    returns for the table reduced to its text columns. *)
Theorem get_dataset_overview_counts_and_range (df : DataFrame) :
  well_formed df ->
  exists text,
    get_dataset_overview to_datetime date_str df
    = ret (Overview (Z.of_nat (index_len df))
                    (Z.of_nat (length (columns df))) text)
    /\ identify_date_range to_datetime date_str (select_dtypes df is_object)
       = ret text.
Proof.
  intros WF. eexists. split.
  - unfold get_dataset_overview, identify_date_range.
    rewrite (date_loop_run to_datetime date_str WF (incl_refl _)), bind_ret.
    reflexivity.
  - unfold identify_date_range.
    rewrite (date_loop_run to_datetime date_str
               (select_dtypes_wf is_object WF) (incl_refl _)).
    simpl columns. rewrite find_in_filter; [reflexivity|].
    intros c H. unfold date_likeb in H. apply andb_prop in H as [H _].
    unfold is_object. destruct (data c); try discriminate. reflexivity.
Qed.

End OverviewFacts.

Lemma get_dataset_overview_counts_and_range_orders :
  well_formed DateSamples.orders
  /\ exists text,
       get_dataset_overview DateSamples.to_datetime DateSamples.date_str
                            DateSamples.orders
       = ret (Overview (Z.of_nat (index_len DateSamples.orders))
                       (Z.of_nat (length (columns DateSamples.orders))) text)
       /\ identify_date_range DateSamples.to_datetime DateSamples.date_str
                              (select_dtypes DateSamples.orders is_object)
          = ret text.
Proof.
  split.
  - apply well_formedb_sound. reflexivity.
  - apply (@get_dataset_overview_counts_and_range
             DateSamples.to_datetime DateSamples.date_str DateSamples.orders).
    apply well_formedb_sound. reflexivity.
Defined.

(** ** The report: contents, pages and heights *)

Section ReportContents.

Variable wrap : string -> Z -> list string.

(** The report shows, in this order: the two title lines, the three
    overview lines, the heading "Numeric Insights", then for each numeric
    record its column name and the wrapped lines of its insight, and last
    the heading "Correlation Heatmap" when there is a matrix; its pictures
    are one histogram (20 bins) for each record, in order, and the heatmap
    when there is a matrix. *)
Theorem generate_pdf_report_contents (dataset_name : string) (ov : overview)
    (numeric : list numeric_stats) (corr_matrix : option corr_matrix)
    (categories : list categorical_summary) :
  drawn_text (generate_pdf_report wrap dataset_name ov numeric corr_matrix
                                  categories)
  = title_lines dataset_name ++ overview_lines ov ++ ["Numeric Insights"]
    ++ flat_map (fun stat => ns_column stat :: wrap (ns_insight stat) 90)
                numeric
    ++ match corr_matrix with
       | Some _ => ["Correlation Heatmap"]
       | None => []
       end
  /\ drawn_images (generate_pdf_report wrap dataset_name ov numeric
                                       corr_matrix categories)
     = map (fun stat => Histogram (ns_values stat) (ns_column stat) 20)
           numeric
       ++ match corr_matrix with
          | Some m => [Heatmap m]
          | None => []
          end.
Proof.
  apply (generate_pdf_report_drawn wrap dataset_name ov numeric corr_matrix
                                   categories).
Qed.

(** *** Pages *)


Lemma breaks_app (d1 d2 : list canvas_op) :
  breaks (d1 ++ d2) = (breaks d1 + breaks d2)%nat.
Proof. unfold breaks. rewrite filter_app, length_app. reflexivity. Qed.

Lemma insight_lines_breaks (lines : list string) :
  forall st,
  breaks (canvas (fold_left
                    (fun st line =>
                       down 14 (drawString line
                                  (emit (SetFont "Helvetica" 11) st)))
                    lines st))
  = breaks (canvas st).
Proof.
  induction lines as [|line lines IH]; intros st; simpl; [reflexivity|].
  rewrite IH. simpl. rewrite !breaks_app. unfold breaks. simpl. lia.
Qed.

Lemma numeric_block_breaks (st : pdf_state) (stat : numeric_stats) :
  (breaks (canvas st) <= breaks (canvas (numeric_block wrap st stat))
   <= S (breaks (canvas st)))%nat.
Proof.
  unfold numeric_block.
  set (st0 := if negb (Qle_bool 250 (y st)) then new_page st else st).
  assert (breaks (canvas st) <= breaks (canvas st0) <= S (breaks (canvas st)))%nat
    as H0.
  { unfold st0. destruct (negb _); [|lia]. simpl.
    rewrite !breaks_app. unfold breaks. simpl. lia. }
  simpl. rewrite breaks_app, insight_lines_breaks. simpl.
  rewrite !breaks_app. unfold breaks in *. simpl. lia.
Qed.

Lemma numeric_blocks_breaks (numeric : list numeric_stats) :
  forall st,
  (breaks (canvas st)
   <= breaks (canvas (fold_left (numeric_block wrap) numeric st))
   <= breaks (canvas st) + length numeric)%nat.
Proof.
  induction numeric as [|stat numeric IH]; intros st; simpl; [lia|].
  specialize (IH (numeric_block wrap st stat)).
  pose proof (numeric_block_breaks st stat). lia.
Qed.

Lemma insight_lines_no_save (lines : list string) :
  forall st,
  ~ In Save (canvas st) ->
  ~ In Save (canvas (fold_left
                       (fun st line =>
                          down 14 (drawString line
                                     (emit (SetFont "Helvetica" 11) st)))
                       lines st)).
Proof.
  induction lines as [|line lines IH]; intros st H; simpl; [exact H|].
  apply IH. simpl. intros Hin.
  apply in_app_or in Hin as [Hin|[Hin|[]]]; [|discriminate].
  apply in_app_or in Hin as [Hin|[Hin|[]]]; [|discriminate]. auto.
Qed.

Lemma numeric_block_no_save (st : pdf_state) (stat : numeric_stats) :
  ~ In Save (canvas st) -> ~ In Save (canvas (numeric_block wrap st stat)).
Proof.
  intros H. unfold numeric_block.
  set (st0 := if negb (Qle_bool 250 (y st)) then new_page st else st).
  assert (~ In Save (canvas st0)) as H0.
  { unfold st0. destruct (negb _); [|exact H]. simpl. intros Hin.
    apply in_app_or in Hin as [Hin|[Hin|[]]]; [|discriminate].
    apply in_app_or in Hin as [Hin|[Hin|[]]]; [|discriminate]. auto. }
  simpl. intros Hin.
  apply in_app_or in Hin as [Hin|[Hin|[]]]; [|discriminate].
  revert Hin. apply insight_lines_no_save. simpl. intros Hin.
  apply in_app_or in Hin as [Hin|[Hin|[]]]; [|discriminate].
  apply in_app_or in Hin as [Hin|[Hin|[]]]; [|discriminate]. auto.
Qed.

Lemma numeric_blocks_no_save (numeric : list numeric_stats) :
  forall st,
  ~ In Save (canvas st) ->
  ~ In Save (canvas (fold_left (numeric_block wrap) numeric st)).
Proof.
  induction numeric as [|stat numeric IH]; intros st H; simpl; [exact H|].
  apply IH. apply numeric_block_no_save. exact H.
Qed.

(** The heatmap section, when there is a matrix, is the last thing of the
    report and opens a page of its own, its heading at the top of that page;
    the report is saved once, at the end; and it has at most one page more
    than it has numeric records, plus the page of the heatmap. *)
Theorem generate_pdf_report_pages (dataset_name : string) (ov : overview)
    (numeric : list numeric_stats) (corr_matrix : option corr_matrix)
    (categories : list categorical_summary) :
  exists body,
    generate_pdf_report wrap dataset_name ov numeric corr_matrix categories
    = body ++ match corr_matrix with
              | Some m => heatmap_ops m
              | None => []
              end ++ [Save]
    /\ ~ In Save body
    /\ (pages body <= 1 + length numeric)%nat
    /\ pages (generate_pdf_report wrap dataset_name ov numeric corr_matrix
                                  categories)
       = (pages body + match corr_matrix with Some _ => 1 | None => 0 end)%nat.
Proof.
  unfold generate_pdf_report.
  match goal with
  | |- context [fold_left (numeric_block wrap) numeric ?s] => set (st := s)
  end.
  exists (canvas (fold_left (numeric_block wrap) numeric st)).
  assert (forall doc, pages doc = S (breaks doc)) as Hpages
    by reflexivity.
  split; [|split; [|split]].
  - destruct corr_matrix as [m|]; simpl; rewrite <- ?app_assoc; reflexivity.
  - apply numeric_blocks_no_save. unfold st. simpl.
    intros H. repeat (destruct H as [H|H]; [discriminate|]). exact H.
  - rewrite Hpages. pose proof (numeric_blocks_breaks numeric st) as H.
    assert (breaks (canvas st) = 0%nat) as E by reflexivity. lia.
  - rewrite !Hpages.
    destruct corr_matrix as [m|]; simpl heatmap_block; simpl canvas;
      rewrite ?breaks_app; unfold breaks; simpl; lia.
Qed.

End ReportContents.

(** *** Heights *)

Lemma heights_app (d1 d2 : list canvas_op) :
  heights (d1 ++ d2) = heights d1 ++ heights d2.
Proof. unfold heights. apply flat_map_app. Qed.

Lemma on_page_decide (y : Q) :
  Qle_bool 0 y && Qle_bool y top = true -> on_page y.
Proof.
  intros H. apply andb_prop in H as [H1 H2].
  split; apply Qle_bool_iff; assumption.
Qed.

Lemma top_above_threshold : (250 <= top)%Q.
Proof. apply Qle_bool_iff. reflexivity. Qed.

Lemma top_positive : (0 <= top)%Q.
Proof. apply Qle_bool_iff. reflexivity. Qed.

Lemma succ_as_Q (n : nat) :
  (inject_Z (Z.of_nat (S n)) == inject_Z (Z.of_nat n) + 1)%Q.
Proof.
  rewrite Nat2Z.inj_succ. unfold Z.succ. rewrite inject_Z_plus. reflexivity.
Qed.

Lemma length_as_Q_nonneg {A} (l : list A) :
  (0 <= inject_Z (Z.of_nat (length l)))%Q.
Proof. change 0%Q with (inject_Z 0). rewrite <- Zle_Qle. lia. Qed.

Section ReportHeights.

Variable wrap : string -> Z -> list string.

Lemma insight_lines_heights (lines : list string) :
  forall (st : pdf_state) (lo : Q),
  (0 <= lo)%Q ->
  Forall on_page (heights (canvas st)) ->
  (y st <= top)%Q ->
  (lo + 14 * inject_Z (Z.of_nat (length lines)) <= y st)%Q ->
  let st' := fold_left
               (fun st line =>
                  down 14 (drawString line (emit (SetFont "Helvetica" 11) st)))
               lines st in
  Forall on_page (heights (canvas st'))
  /\ (lo <= y st' <= y st)%Q.
Proof.
  induction lines as [|line lines IH]; intros st lo Hlo Hok Htop Hroom.
  - cbv zeta. cbn [fold_left]. cbn [length] in Hroom.
    change (inject_Z (Z.of_nat 0)) with 0%Q in Hroom.
    split; [exact Hok|]. split; Lqa.lra.
  - cbv zeta. cbn [fold_left]. cbn [length] in Hroom.
    rewrite succ_as_Q in Hroom.
    pose proof (length_as_Q_nonneg lines) as Hn.
    set (st1 := down 14 (drawString line (emit (SetFont "Helvetica" 11) st))).
    assert (y st1 = y st - 14)%Q as Ey by reflexivity.
    destruct (@IH st1 lo Hlo) as [Hok' Hy'].
    + unfold st1. simpl. rewrite !heights_app. simpl.
      rewrite app_nil_r. apply Forall_app. split; [exact Hok|].
      constructor; [|constructor]. split; Lqa.lra.
    + rewrite Ey. Lqa.lra.
    + rewrite Ey. Lqa.lra.
    + split; [exact Hok'|]. rewrite Ey in Hy'. split; Lqa.lra.
Qed.

Lemma numeric_block_heights (st : pdf_state) (stat : numeric_stats) :
  (length (wrap (ns_insight stat) 90) <= 8)%nat ->
  Forall on_page (heights (canvas st)) ->
  (y st <= top)%Q ->
  Forall on_page (heights (canvas (numeric_block wrap st stat)))
  /\ (y (numeric_block wrap st stat) <= top)%Q.
Proof.
  intros Hlines Hok Htop. unfold numeric_block.
  set (st0 := if negb (Qle_bool 250 (y st)) then new_page st else st).
  assert (Forall on_page (heights (canvas st0))
          /\ (250 <= y st0 <= top)%Q) as [Hok0 Hy0].
  { unfold st0. destruct (Qle_bool 250 (y st)) eqn:E; simpl negb; cbv iota.
    - apply Qle_bool_iff in E. auto.
    - simpl. rewrite !heights_app. simpl. rewrite !app_nil_r.
      split; [exact Hok|]. split; [apply top_above_threshold|apply Qle_refl]. }
  set (st1 := down 15 (drawString (ns_column stat)
                         (emit (SetFont "Helvetica-Bold" 12) st0))).
  assert (y st1 = y st0 - 15)%Q as Ey1 by reflexivity.
  assert (inject_Z (Z.of_nat (length (wrap (ns_insight stat) 90))) <= 8)%Q
    as Hn by (change 8%Q with (inject_Z 8); rewrite <- Zle_Qle; lia).
  destruct (@insight_lines_heights (wrap (ns_insight stat) 90) st1 120%Q)
    as [Hok2 Hy2].
  - Lqa.lra.
  - unfold st1. simpl. rewrite !heights_app. simpl. rewrite app_nil_r.
    apply Forall_app. split; [exact Hok0|].
    constructor; [|constructor]. split; Lqa.lra.
  - rewrite Ey1. Lqa.lra.
  - rewrite Ey1. Lqa.lra.
  - rewrite Ey1 in Hy2. simpl. rewrite heights_app. simpl. split.
    + apply Forall_app. split; [exact Hok2|].
      constructor; [|constructor]. split; Lqa.lra.
    + Lqa.lra.
Qed.

Lemma numeric_blocks_heights (numeric : list numeric_stats) :
  forall st,
  (forall stat, In stat numeric ->
                (length (wrap (ns_insight stat) 90) <= 8)%nat) ->
  Forall on_page (heights (canvas st)) ->
  (y st <= top)%Q ->
  Forall on_page (heights (canvas (fold_left (numeric_block wrap) numeric st))).
Proof.
  induction numeric as [|stat numeric IH]; intros st Hlines Hok Htop; simpl;
    [exact Hok|].
  destruct (@numeric_block_heights st stat
              (Hlines stat (or_introl eq_refl)) Hok Htop) as [Hok' Htop'].
  apply IH; auto. intros s Hs. apply Hlines. right. exact Hs.
Qed.

(** Nothing is drawn off the page as long as no insight wraps to more than
    8 lines: every line of text and every picture of the report is then put
    at a height between the bottom edge and the first line of a page, thanks
    to the new page that a record starts when less than 250 points are
    left. *)
Theorem generate_pdf_report_stays_on_page (dataset_name : string)
    (ov : overview) (numeric : list numeric_stats)
    (corr_matrix : option corr_matrix)
    (categories : list categorical_summary) :
  (forall stat, In stat numeric ->
                (length (wrap (ns_insight stat) 90) <= 8)%nat) ->
  Forall on_page
         (heights (generate_pdf_report wrap dataset_name ov numeric
                                       corr_matrix categories)).
Proof.
  intros Hlines. unfold generate_pdf_report.
  match goal with
  | |- context [fold_left (numeric_block wrap) numeric ?s] => set (st := s)
  end.
  assert (Forall on_page (heights (canvas st))) as Hok.
  { unfold st. simpl. repeat constructor; apply Qle_bool_iff; reflexivity. }
  assert (y st <= top)%Q as Htop by (apply Qle_bool_iff; reflexivity).
  pose proof (@numeric_blocks_heights numeric st Hlines Hok Htop) as H.
  set (done := fold_left (numeric_block wrap) numeric st) in *.
  destruct corr_matrix as [m|]; unfold heatmap_block, new_page, drawString,
    emit, down; cbn [canvas y]; rewrite ?heights_app;
    repeat (apply Forall_app; split); try exact H;
    unfold heights; cbn [flat_map app];
    repeat constructor; apply Qle_bool_iff; reflexivity.
Qed.

End ReportHeights.

Lemma generate_pdf_report_stays_on_page_sample :
  (forall stat,
     In stat [stats_of Samples.fixed true
                (Column "price" (Numeric [Some 5; Some 5]%Q))] ->
     (length ((fun text (_ : Z) => [text]) (ns_insight stat) 90%Z) <= 8)%nat)
  /\ Forall on_page
       (heights (generate_pdf_report (fun text _ => [text]) "prices.csv"
                   (Overview 2 1 "No date column detected")
                   [stats_of Samples.fixed true
                      (Column "price" (Numeric [Some 5; Some 5]%Q))]
                   None [])).
Proof.
  split.
  - intros stat _. simpl. lia.
  - apply (@generate_pdf_report_stays_on_page (fun text _ => [text])
             "prices.csv" (Overview 2 1 "No date column detected")
             [stats_of Samples.fixed true
                (Column "price" (Numeric [Some 5; Some 5]%Q))]
             None []).
    intros stat _. simpl. lia.
Defined.

(** ** Charts of the page *)





Section NumericPage.

Variable fixed : nat -> pyfloat -> string.






End NumericPage.


(** ** The report offered for download *)

Section DownloadFacts.

Variable fixed : nat -> pyfloat -> string.
Variable wrap : string -> Z -> list string.

Lemma report_pages_bound (dataset_name : string) (ov : overview)
    (numeric : list numeric_stats) (corr_matrix : option corr_matrix)
    (categories : list categorical_summary) :
  (pages (generate_pdf_report wrap dataset_name ov numeric corr_matrix
                              categories)
   <= 2 + length numeric)%nat.
Proof.
  unfold generate_pdf_report.
  match goal with
  | |- context [fold_left (numeric_block wrap) numeric ?s] => set (st := s)
  end.
  pose proof (numeric_blocks_breaks wrap numeric st) as H.
  assert (breaks (canvas st) = 0%nat) as E by reflexivity.
  change (S (breaks (canvas (emit Save
            (heatmap_block (fold_left (numeric_block wrap) numeric st)
                           corr_matrix)))) <= 2 + length numeric)%nat.
  destruct corr_matrix as [m|]; simpl heatmap_block; simpl canvas;
    rewrite ?breaks_app; unfold breaks in *; simpl; lia.
Qed.

(** The report offered for download holds one histogram (of the non-null
    values, 20 bins) for each of the first three numeric columns that pass
    the checks of the numeric analysis, and then the heatmap exactly when
    the table has at least two numeric columns, whether or not any pair
    reaches the threshold of the page; it has at most 5 pages. *)
Theorem report_download_pictures (df : DataFrame) (dataset_name : string)
    (ov : overview) (explain_like_new : bool) :
  well_formed df ->
  exists doc,
    outcome (report_download fixed wrap df dataset_name ov explain_like_new)
    = Ok doc
    /\ drawn_images doc
       = map (fun c => Histogram (dropna (data c)) (label c) 20)
             (firstn 3 (filter (eligible df) (numeric_columns df)))
         ++ (if (2 <=? length (numeric_columns df))%nat
             then [Heatmap (correlation_matrix df)] else [])
    /\ (pages doc <= 5)%nat.
Proof.
  intros WF.
  pose proof (analyze_numeric_columns_outcome fixed default_max_numeric
                explain_like_new WF) as Hrun.
  rewrite (@until_cap_firstn _ default_max_numeric _ 0%nat) in Hrun
    by reflexivity.
  change (Z.to_nat default_max_numeric - 0)%nat with 3%nat in Hrun.
  fold (numeric_columns df) in Hrun.
  eexists. split; [|split].
  - unfold report_download. rewrite outcome_bind, Hrun.
    rewrite analyze_categorical_columns_run, bind_ret.
    rewrite get_correlation_matrix_run, bind_ret. reflexivity.
  - match goal with
    | |- drawn_images (generate_pdf_report _ ?n ?o ?num ?cm ?cats) = _ =>
        destruct (generate_pdf_report_drawn wrap n o num cm cats) as [_ Hi]
    end.
    rewrite Hi, map_map. f_equal.
    destruct (2 <=? length (numeric_columns df))%nat; reflexivity.
  - match goal with
    | |- (pages (generate_pdf_report _ ?n ?o ?num ?cm ?cats) <= _)%nat =>
        pose proof (report_pages_bound n o num cm cats) as Hp
    end.
    rewrite length_map in Hp.
    pose proof (firstn_le_length 3
                  (filter (eligible df) (numeric_columns df))).
    lia.
Qed.

End DownloadFacts.

Lemma report_download_pictures_sales :
  well_formed Samples.sales
  /\ exists doc,
       outcome (report_download Samples.fixed (fun text _ => [text])
                  Samples.sales "sales.csv"
                  (Overview 4 4 "No date column detected") true)
       = Ok doc
       /\ drawn_images doc
          = map (fun c => Histogram (dropna (data c)) (label c) 20)
                (firstn 3 (filter (eligible Samples.sales)
                                  (numeric_columns Samples.sales)))
            ++ (if (2 <=? length (numeric_columns Samples.sales))%nat
                then [Heatmap (correlation_matrix Samples.sales)] else [])
       /\ (pages doc <= 5)%nat.
Proof.
  split.
  - apply well_formedb_sound. reflexivity.
  - apply (@report_download_pictures Samples.fixed (fun text _ => [text])
             Samples.sales "sales.csv"
             (Overview 4 4 "No date column detected") true).
    apply well_formedb_sound. reflexivity.
Defined.

(** ** Numeric analysis with a maximum of zero or less *)

Lemma until_cap_reached {A} (max_columns : Z) (kept : list A) :
  max_columns <= 0 -> until_cap max_columns 0 kept = firstn 1 kept.
Proof.
  intros H. destruct kept as [|x kept]; [reflexivity|].
  cbn [until_cap firstn].
  destruct (Z.geb_spec (Z.of_nat 1) max_columns); [reflexivity|lia].
Qed.

(** A maximum of 0 or less does not stop the numeric analysis before its
    first record: the result is the record of the first numeric column that
    passes the checks, alone, and it is empty only when no column passes. *)
Theorem analyze_numeric_columns_nonpositive_maximum
    (fixed : nat -> pyfloat -> string) (df : DataFrame) (max_columns : Z)
    (beginner : bool) :
  well_formed df -> max_columns <= 0 ->
  outcome (analyze_numeric_columns fixed df max_columns beginner)
  = Ok (map (stats_of fixed beginner)
            (firstn 1 (filter (eligible df) (numeric_columns df)))).
Proof.
  intros WF Hmax.
  rewrite (analyze_numeric_columns_outcome fixed max_columns beginner WF).
  rewrite until_cap_reached by exact Hmax. reflexivity.
Qed.

Lemma analyze_numeric_columns_nonpositive_maximum_sales :
  (well_formed Samples.sales /\ -2 <= 0)
  /\ outcome (analyze_numeric_columns Samples.fixed Samples.sales (-2) true)
     = Ok (map (stats_of Samples.fixed true)
               (firstn 1 (filter (eligible Samples.sales)
                                 (numeric_columns Samples.sales)))).
Proof.
  split.
  - split; [apply well_formedb_sound; reflexivity|lia].
  - apply (@analyze_numeric_columns_nonpositive_maximum
             Samples.fixed Samples.sales (-2) true).
    + apply well_formedb_sound. reflexivity.
    + lia.
Defined.
